(** * Raven off-chain oracle: authorization, cost table and credit calculator

    A shallow embedding of [ravenOracle.js] (class [RavenOracle]) and of the
    serializer of [server.js], with the facts about them that the
    specification states and further properties read off the code.

    Modelling conventions.
    - A JavaScript Number is a [number]: a finite value carried by the
      rational it denotes, or one of NaN, +Infinity, -Infinity; -0 is
      identified with 0.  The operations compute with these rationals,
      where the code rounds each result to the nearest binary64 value: the
      two agree whenever the operands and the exact result are binary64
      values ([binary64]), in particular on whole numbers up to 2^53
      ([binary64_whole]).  Comparisons and [BigInt(...)] do not round.  A
      theorem about the oracle that relies on the value a sum, a product or
      a quotient takes says where that value is computed without rounding
      ([exact_cost], [exact_cap_test], [exact_request], or a bound on whole
      operands); the lemmas on the operations themselves are facts of the
      exact operations.
    - A value decoded from the contract is a [jsval]: a Number or a BigInt.
      [server.js] serialises [typeof value === 'bigint'] fields of these
      results, and the oracle converts them with [Number(...)] before
      comparing them.
    - [Date.now()] is the argument [now] (milliseconds).
    - The contract [this.ravenAccess] is a record of the functions the
      oracle calls, each of which may reject; every call of one of them is
      recorded in a log, so that "no external read" is a statement about
      that log.
    - The mutable fields of the oracle ([_rateLimiter], [_grantedInitial])
      are threaded through a small state-and-exception monad. *)

From Stdlib Require Import ZArith QArith Qround Lia Lqa.
From stdpp Require Import gmap strings list.
From Stdlib Require Import DecimalString DecimalPos DecimalZ.

Close Scope Q_scope.
Open Scope string_scope.
Open Scope list_scope.
Open Scope Z_scope.

(* ===================================================================== *)
(** ** JavaScript numbers                                                 *)
(* ===================================================================== *)

Inductive number :=
| Fin (q : Q)
| NaN
| PosInf
| NegInf.

(** A Number literal of the source that is a whole number. *)
Definition lit (z : Z) : number := Fin (inject_Z z).

(** [Number.isFinite(x)] on a Number. *)
Definition isFinite (x : number) : bool :=
  match x with Fin _ => true | _ => false end.

(** [a <= b] on Numbers: false as soon as one side is NaN. *)
Definition number_le (a b : number) : bool :=
  match a, b with
  | NaN, _ | _, NaN => false
  | Fin p, Fin q => Qle_bool p q
  | NegInf, _ => true
  | _, PosInf => true
  | _, _ => false
  end.

(** [a < b] on Numbers. *)
Definition number_lt (a b : number) : bool :=
  match a, b with
  | NaN, _ | _, NaN => false
  | Fin p, Fin q => negb (Qle_bool q p)
  | PosInf, _ => false
  | _, NegInf => false
  | _, _ => true
  end.

(** [a > b] and [a >= b]. *)
Definition number_gt (a b : number) : bool := number_lt b a.
Definition number_ge (a b : number) : bool := number_le b a.

(** [a === b] on Numbers (NaN differs from itself). *)
Definition number_eq (a b : number) : bool :=
  match a, b with
  | Fin p, Fin q => Qeq_bool p q
  | PosInf, PosInf => true
  | NegInf, NegInf => true
  | _, _ => false
  end.

(** [a + b], on the values the operands denote: the code's sum is the
    binary64 value nearest to it, hence this one whenever this one is a
    binary64 value. *)
Definition number_add (a b : number) : number :=
  match a, b with
  | NaN, _ | _, NaN => NaN
  | Fin p, Fin q => Fin (Qred (p + q))
  | PosInf, NegInf | NegInf, PosInf => NaN
  | PosInf, _ | _, PosInf => PosInf
  | NegInf, _ | _, NegInf => NegInf
  end.

(** The sign of a finite value, used by the products with an infinity. *)
Definition Qsign (q : Q) : Z := Z.sgn (Qnum q).

Definition signed_inf (s : Z) : number :=
  match s with
  | Z0 => NaN
  | Zpos _ => PosInf
  | Zneg _ => NegInf
  end.

Definition sign_of (a : number) : Z :=
  match a with
  | Fin q => Qsign q
  | PosInf => 1
  | NegInf => -1
  | NaN => 0
  end.

(** [a * b], likewise on the values the operands denote. *)
Definition number_mul (a b : number) : number :=
  match a, b with
  | NaN, _ | _, NaN => NaN
  | Fin p, Fin q => Fin (Qred (p * q))
  | _, _ => signed_inf (sign_of a * sign_of b)
  end.




(** The whole number a finite value denotes, if it denotes one. *)
Definition whole (q : Q) : option Z :=
  if (Qnum q mod Zpos (Qden q) =? 0) then Some (Qnum q / Zpos (Qden q)) else None.

(* ===================================================================== *)
(** ** Exceptions and results                                             *)
(* ===================================================================== *)

Inductive exn :=
| UnknownMode          (* new Error('Unknown mode') *)
| InvalidQuantity      (* new Error('quantity must be > 0') *)
| NotAnInteger         (* the RangeError of BigInt(x) on a Number that is no integer *)
| SignerRequired       (* new Error('Signer is required') *)
| UserAddressRequired  (* new Error('userAddress is required') *)
| ReadFailure.         (* a rejected contract call *)

Inductive result (A : Type) :=
| Return (a : A)
| Throw (e : exn).
Arguments Return {A} a.
Arguments Throw {A} e.

(** [BigInt(x)] on a Number. *)
Definition BigInt_of_number (x : number) : result Z :=
  match x with
  | Fin q => match whole q with Some z => Return z | None => Throw NotAnInteger end
  | _ => Throw NotAnInteger
  end.

(* ===================================================================== *)
(** ** Values decoded from the contract                                   *)
(* ===================================================================== *)

Inductive jsval :=
| JNumber (n : number)
| JBigInt (z : Z).

(** [Number(v)]: the value of a BigInt, which the code rounds to the nearest
    binary64 value (no rounding up to 2^53). *)
Definition Number_of (v : jsval) : number :=
  match v with
  | JNumber n => n
  | JBigInt z => lit z
  end.

(** [a === b]: operands of different types are never strictly equal. *)
Definition strict_equals (a b : jsval) : bool :=
  match a, b with
  | JNumber x, JNumber y => number_eq x y
  | JBigInt x, JBigInt y => x =? y
  | _, _ => false
  end.

(* ===================================================================== *)
(** ** The cost table                                                     *)
(* ===================================================================== *)

(** What the property read [this.COSTS[m]] produces.  [COSTS] is an object
    literal, so a name that is not one of its four own keys is looked up on
    [Object.prototype]: the members of that object are functions (and, for
    [__proto__], the prototype object itself), all of them truthy and all of
    them NaN once converted to a Number. *)
Inductive slot :=
| Undefined
| OwnCost (unit : Z)
| Inherited.

Definition Object_prototype_keys : list string :=
  [ "constructor"; "hasOwnProperty"; "isPrototypeOf"; "propertyIsEnumerable";
    "toLocaleString"; "toString"; "valueOf"; "__proto__";
    "__defineGetter__"; "__defineSetter__"; "__lookupGetter__"; "__lookupSetter__" ].

Definition COSTS (m : string) : slot :=
  if String.eqb m "basic" then OwnCost 1
  else if String.eqb m "tags" then OwnCost 2
  else if String.eqb m "price_accuracy" then OwnCost 4
  else if String.eqb m "full" then OwnCost 6
  else if existsb (String.eqb m) Object_prototype_keys then Inherited
  else Undefined.

(** [!unit]. *)
Definition falsy (s : slot) : bool :=
  match s with
  | Undefined => true
  | OwnCost u => u =? 0
  | Inherited => false
  end.

(** The Number that [unit * quantity] converts [unit] to. *)
Definition slot_number (s : slot) : number :=
  match s with
  | OwnCost u => lit u
  | _ => NaN
  end.

Definition GLOBAL_PRICE_ACCURACY_CAP : Z := 3000.
Definition RATE_LIMIT_PER_MINUTE : Z := 30.


(** [getInferenceCost(mode, quantity)].  [mode] is a string, on which
    [String(mode)] is the identity; an omitted [quantity] is the Number 1. *)
Definition getInferenceCost (mode : string) (quantity : number) : result number :=
  let unit := COSTS mode in
  if falsy unit then Throw UnknownMode
  else if negb (isFinite quantity) || number_le quantity (lit 0) then Throw InvalidQuantity
  else Return (number_mul (slot_number unit) quantity).


(* ===================================================================== *)
(** ** The contract, the oracle state and the effects of a method         *)
(* ===================================================================== *)

(** The tuple returned by the view [getUserSubscription(address)]. *)
Record SubscriptionView := {
  v_planId : jsval;
  v_startTs : jsval;
  v_usedThisWindow : jsval;
  v_lastRenewedAt : jsval;
  v_planMonthlyCap : jsval;
  v_planPriceUnits : jsval
}.

(** The tuple returned by the view [plans(uint8)]. *)
Record PlanView := {
  pv_priceUnits : jsval;
  pv_monthlyCap : jsval;
  pv_active : bool
}.

(** The receipt of a mined transaction (its block number). *)
Definition Receipt : Type := Z.

(** [this.ravenAccess]: the three reads the oracle performs and the one
    write it submits, [awardCredits(user, amount, reason)] followed by
    [tx.wait()].  A [Throw] is a rejected call. *)
Record Contract := {
  c_getUserSubscription : string -> result SubscriptionView;
  c_plans : jsval -> result PlanView;
  c_getUserCredits : string -> result Z;
  c_awardCredits : string -> Z -> string -> result Receipt
}.

(** One entry of the log of external calls: the three reads and the
    write. *)
Inductive external_call :=
| ReadSubscription (user : string)
| ReadPlan (planId : jsval)
| ReadCredits (user : string)
| AwardCredits (user : string) (amount : Z) (reason : string).

(** The mutable fields of a [RavenOracle]. *)
Record Oracle := {
  _rateLimiter : gmap string (list Z);
  _grantedInitial : gset string
}.

(** A method: from the oracle state to a result, the new state and the
    external calls performed, in order. *)
Definition M (A : Type) : Type := Oracle -> result A * Oracle * list external_call.

Definition ret {A} (a : A) : M A := fun s => (Return a, s, []).

Definition throw {A} (e : exn) : M A := fun s => (Throw e, s, []).

Definition bind {A B} (m : M A) (k : A -> M B) : M B := fun s =>
  match m s with
  | (Return a, s1, l1) =>
      match k a s1 with (r, s2, l2) => (r, s2, l1 ++ l2) end
  | (Throw e, s1, l1) => (Throw e, s1, l1)
  end.

(** [try { body } catch (error) { handler }]. *)
Definition try_catch {A} (body : M A) (handler : exn -> M A) : M A := fun s =>
  match body s with
  | (Return a, s1, l1) => (Return a, s1, l1)
  | (Throw e, s1, l1) =>
      match handler e s1 with (r, s2, l2) => (r, s2, l1 ++ l2) end
  end.

(** A pure computation that may throw. *)
Definition lift {A} (r : result A) : M A := fun s => (r, s, []).

(** [await this.ravenAccess.f(...)]: the call is logged. *)
Definition call {A} (ev : external_call) (r : result A) : M A := fun s => (r, s, [ev]).

Definition get : M Oracle := fun s => (Return s, s, []).

Definition put (s' : Oracle) : M unit := fun _ => (Return tt, s', []).

Notation "'let*' x ':=' m 'in' k" := (bind m (fun x => k))
  (at level 10, x name, m at level 100, k at level 200, only parsing).

(** The subscription object built by [getUserSubscription]. *)
Record Plan := {
  priceUnits : jsval;
  monthlyCap : jsval;
  active : bool
}.

Record Subscription := {
  planId : jsval;
  startTimestamp : jsval;
  usedThisWindow : jsval;
  lastRenewedAt : jsval;
  plan : Plan
}.

(** The object returned by [authorizeInference]. *)
Record Decision := {
  allowed : bool;
  method : string;
  reason : string;
  cost : number
}.

(** [isRateLimited(userAddress)], with [Date.now()] = [now]. *)
Definition isRateLimited (now : Z) (userAddress : string) : M bool :=
  let windowMs := 60 * 1000 in
  let* s := get in
  let arr := default [] (_rateLimiter s !! userAddress) in
  let recent := List.filter (fun t => now - t <=? windowMs) arr in
  let limited := Z.of_nat (length recent) >=? RATE_LIMIT_PER_MINUTE in
  let recent := recent ++ [now] in
  let* _ := put {| _rateLimiter := <[userAddress := recent]> (_rateLimiter s);
                   _grantedInitial := _grantedInitial s |} in
  ret limited.

Section Methods.

Variable ravenAccess : Contract.

(** [getUserSubscription(userAddress)]; [None] is [null]. *)
Definition getUserSubscription (userAddress : string) : M (option Subscription) :=
  try_catch
    (let* res := call (ReadSubscription userAddress)
                      (c_getUserSubscription ravenAccess userAddress) in
     let planId := v_planId res in
     let startTimestamp := v_startTs res in
     let usedThisWindow := v_usedThisWindow res in
     let lastRenewedAt := v_lastRenewedAt res in
     let planMonthlyCap := v_planMonthlyCap res in
     let planPriceUnits := v_planPriceUnits res in
     let* active :=
       (if number_gt (Number_of planId) (lit 0) then
          let* fullPlan := call (ReadPlan planId) (c_plans ravenAccess planId) in
          ret (pv_active fullPlan)
        else ret false) in
     ret (Some {| planId := planId;
                  startTimestamp := startTimestamp;
                  usedThisWindow := usedThisWindow;
                  lastRenewedAt := lastRenewedAt;
                  plan := {| priceUnits := planPriceUnits;
                             monthlyCap := planMonthlyCap;
                             active := active |} |}))
    (fun _ => ret None).

(** [getUserCredits(userAddress)].  The decimal string that the method
    returns, and that the caller parses back with [BigInt(...)], is carried
    by the integer it denotes; the string of the handler is ['0']. *)
Definition getUserCredits (userAddress : string) : M Z :=
  try_catch
    (let* credits := call (ReadCredits userAddress)
                          (c_getUserCredits ravenAccess userAddress) in
     ret credits)
    (fun _ => ret 0).

(** [authorizeInference(userAddress, mode, quantity)], with [Date.now()] =
    [now]. *)
Definition authorizeInference (now : Z) (userAddress mode : string) (quantity : number)
  : M Decision :=
  (* 1) Rate limit *)
  let* limited := isRateLimited now userAddress in
  if limited then
    ret {| allowed := false; method := "deny"; reason := "rate_limited"; cost := lit 0 |}
  else
  (* 2) Fetch on-chain state *)
  let* subscription := getUserSubscription userAddress in
  let* credits := getUserCredits userAddress in
  (* 3) Initial one-time allowance (process-local guard) *)
  let* this := get in
  if negb (bool_decide (userAddress ∈ _grantedInitial this))
     && (credits =? 0)
     && match subscription with
        | None => true
        | Some sub => strict_equals (planId sub) (JNumber (lit 0))
        end
  then
    ret {| allowed := true; method := "initial_grant"; reason := "initial_50_credits";
           cost := lit 0 |}
  else
  (* 4) Prefer subscription if active *)
  let isSubscribed :=
    match subscription with
    | None => false
    | Some sub => number_gt (Number_of (planId sub)) (lit 0) && active (plan sub)
    end in
  let* cost := lift (getInferenceCost mode quantity) in
  let isPriceAccuracyMode := String.eqb mode "price_accuracy" || String.eqb mode "full" in
  (* the test of the inner [if], which the source reaches under
     [if (isSubscribed)] only *)
  let within_cap :=
    match subscription with
    | None => false
    | Some sub =>
        let monthlyCap := Number_of (monthlyCap (plan sub)) in
        let used := Number_of (usedThisWindow sub) in
        let effectiveCap :=
          if isPriceAccuracyMode then lit GLOBAL_PRICE_ACCURACY_CAP else monthlyCap in
        number_le (number_add used quantity) effectiveCap
    end in
  if isSubscribed && within_cap then
    ret {| allowed := true; method := "subscription"; reason := "within_subscription_cap";
           cost := lit 0 |}
  else
  (* 5) Charge credits if available *)
  let* needed := lift (BigInt_of_number cost) in
  if credits >=? needed then
    ret {| allowed := true; method := "credits"; reason := "sufficient_credits";
           cost := cost |}
  else
  (* 6) Fallback *)
  if isSubscribed && within_cap then
    ret {| allowed := true; method := "subscription"; reason := "fallback_subscription";
           cost := lit 0 |}
  else
    ret {| allowed := false; method := "deny"; reason := "insufficient_balance_and_cap";
           cost := cost |}.

(** [grantInitialCreditsIfEligible(signer, userAddress)]; [None] is [null],
    for the signer as for the result. *)
Definition grantInitialCreditsIfEligible (signer : option string) (userAddress : string)
  : M (option Receipt) :=
  if negb (bool_decide (is_Some signer)) then throw SignerRequired else
  if String.eqb userAddress "" then throw UserAddressRequired else
  let* this := get in
  if bool_decide (userAddress ∈ _grantedInitial this) then ret None else
  let* credits := getUserCredits userAddress in
  let* subscription := getUserSubscription userAddress in
  let isSubscribed :=
    match subscription with
    | None => false
    | Some sub => number_gt (Number_of (planId sub)) (lit 0) && active (plan sub)
    end in
  if (credits >? 0) || isSubscribed then ret None else
  let* receipt := call (AwardCredits userAddress 50 "initial_grant")
                       (c_awardCredits ravenAccess userAddress 50 "initial_grant") in
  let* this := get in
  let* _ := put {| _rateLimiter := _rateLimiter this;
                   _grantedInitial := {[ userAddress ]} ∪ _grantedInitial this |} in
  ret (Some receipt).

End Methods.

(* ===================================================================== *)
(** ** Concrete ledgers and oracle states used by the examples            *)
(* ===================================================================== *)

(** A contract whose three reads answer the same thing for every argument,
    and whose write is mined in block 1. *)
Definition ledger (sub : result SubscriptionView) (pl : result PlanView)
    (cr : result Z) : Contract :=
  {| c_getUserSubscription := fun _ => sub;
     c_plans := fun _ => pl;
     c_getUserCredits := fun _ => cr;
     c_awardCredits := fun _ _ _ => Return 1 |}.

(** The view of a subscription as ethers decodes it: every field a BigInt. *)
Definition view (pid used cap : Z) : SubscriptionView :=
  {| v_planId := JBigInt pid;
     v_startTs := JBigInt 0;
     v_usedThisWindow := JBigInt used;
     v_lastRenewedAt := JBigInt 0;
     v_planMonthlyCap := JBigInt cap;
     v_planPriceUnits := JBigInt 0 |}.

Definition plan_view (cap : Z) (act : bool) : PlanView :=
  {| pv_priceUnits := JBigInt 0; pv_monthlyCap := JBigInt cap; pv_active := act |}.

(** A freshly constructed oracle. *)
Definition fresh : Oracle := {| _rateLimiter := ∅; _grantedInitial := ∅ |}.

(** An oracle that has already granted the initial allowance to [u]. *)
Definition granted (u : string) : Oracle :=
  {| _rateLimiter := ∅; _grantedInitial := {[ u ]} |}.

(** An oracle in which [u] made [n] requests at time [t]. *)
Definition busy (u : string) (n : nat) (t : Z) : Oracle :=
  {| _rateLimiter := {[ u := repeat t n ]}; _grantedInitial := ∅ |}.

Definition alice : string := "0x742d35Cc6634C0532925a3b8D4C9db96C4b4d8b6".

(* ===================================================================== *)
(** ** Reading a run; the decision as a function of the fetched state     *)
(* ===================================================================== *)

(** The three components of a run. *)
Definition outcome {A} (x : result A * Oracle * list external_call) : result A := fst (fst x).
Definition final {A} (x : result A * Oracle * list external_call) : Oracle := snd (fst x).
Definition calls {A} (x : result A * Oracle * list external_call) : list external_call := snd x.

(** The decision object of a rate-limited call. *)
Definition rate_limited : Decision :=
  {| allowed := false; method := "deny"; reason := "rate_limited"; cost := lit 0 |}.

(** The cap that step 4 compares the usage with. *)
Definition effectiveCap (mode : string) (sub : Subscription) : number :=
  if String.eqb mode "price_accuracy" || String.eqb mode "full"
  then lit GLOBAL_PRICE_ACCURACY_CAP
  else Number_of (monthlyCap (plan sub)).

(** The unit cost of a mode of the cost table, as the specification reads
    the table: the own entries of [COSTS]. *)
Definition unitCost (mode : string) : option Z :=
  match COSTS mode with
  | OwnCost unit => Some unit
  | _ => None
  end.

(** The condition of step 3, on the guard set, the subscription object and
    the balance that steps 1 and 2 produced. *)
Definition initial_grant_applies (guard : gset string) (userAddress : string)
    (subscription : option Subscription) (credits : Z) : bool :=
  negb (bool_decide (userAddress ∈ guard)) && (credits =? 0)
  && match subscription with
     | None => true
     | Some sub => strict_equals (planId sub) (JNumber (lit 0))
     end.

(** [isSubscribed]. *)
Definition isSubscribed (subscription : option Subscription) : bool :=
  match subscription with
  | None => false
  | Some sub => number_gt (Number_of (planId sub)) (lit 0) && active (plan sub)
  end.

(** The condition of steps 4 and 6: subscribed, and the usage plus the
    quantity within the effective cap. *)
Definition subscription_covers (mode : string) (quantity : number)
    (subscription : option Subscription) : bool :=
  match subscription with
  | None => false
  | Some sub =>
      isSubscribed subscription
      && number_le (number_add (Number_of (usedThisWindow sub)) quantity)
                   (effectiveCap mode sub)
  end.

(** *** Where the arithmetic of a call is exact

    The operations on [number] compute with the rationals that the operands
    denote, while the code computes with IEEE 754 binary64 values and rounds
    every result to the nearest one.  The two agree whenever the operands
    are binary64 values and the exact result is one as well.  The
    predicates below say so for the two computations of
    [authorizeInference]; the statements about its arithmetic carry them as
    hypotheses. *)

(** The number of trailing zero bits of a positive integer, and what is left
    of it once they are removed. *)
Fixpoint trailing_zeros (p : positive) : Z :=
  match p with
  | xO p' => 1 + trailing_zeros p'
  | _ => 0
  end.

Fixpoint odd_part (p : positive) : positive :=
  match p with
  | xO p' => odd_part p'
  | _ => p
  end.

(** Whether a rational is a binary64 value: zero, or [m * 2^e] with [m] odd,
    [m < 2^53], [e >= -1074] and the value below [2^1024].  On the reduced
    fraction [n / d]: [d] is a power of two, [m] is the odd part of [n], and
    [e] is the number of trailing zeros of [n] minus that of [d]. *)
Definition binary64 (q : Q) : bool :=
  match Qnum (Qred q) with
  | Z0 => true
  | Zpos n | Zneg n =>
      let d := Qden (Qred q) in
      let m := Z.pos (odd_part n) in
      let e := trailing_zeros n - trailing_zeros d in
      Pos.eqb (odd_part d) 1 && (m <? 2 ^ 53) && (-1074 <=? e)
      && (Z.log2 m + e <=? 1023)
  end.

(** The product [unit * quantity] of [getInferenceCost]: the quantity is a
    binary64 value and so is the exact product.  Nothing is multiplied when
    the mode resolves to nothing or the quantity is not finite, and the
    product with an inherited property is NaN whatever the quantity. *)
Definition exact_cost (mode : string) (quantity : number) : bool :=
  match COSTS mode, quantity with
  | OwnCost unit, Fin q => binary64 q && binary64 (inject_Z unit * q)
  | _, _ => true
  end.

(** The test [Number(usedThisWindow) + quantity <= effectiveCap] of steps 4
    and 6, which is evaluated for a subscribed user: the usage and the cap
    convert to Numbers without rounding, the quantity is a binary64 value
    and so is the exact sum. *)
Definition exact_cap_test (mode : string) (quantity : number)
    (subscription : option Subscription) : bool :=
  match subscription with
  | None => true
  | Some sub =>
      if isSubscribed subscription then
        match Number_of (usedThisWindow sub), quantity, effectiveCap mode sub with
        | Fin u, Fin q, Fin c =>
            binary64 u && binary64 q && binary64 c && binary64 (u + q)
        | _, _, _ => false
        end
      else true
  end.

(** Both computations of a call on the fetched subscription. *)
Definition exact_request (mode : string) (quantity : number)
    (subscription : option Subscription) : bool :=
  exact_cost mode quantity && exact_cap_test mode quantity subscription.

(** Steps 3 to 7 of [authorizeInference] as a function of what steps 1 and 2
    produced.  It is related to the method by [authorizeInference_run]. *)
Definition decision (guard : gset string) (userAddress mode : string)
    (quantity : number) (subscription : option Subscription) (credits : Z)
  : result Decision :=
  if initial_grant_applies guard userAddress subscription credits
  then Return {| allowed := true; method := "initial_grant";
                 reason := "initial_50_credits"; cost := lit 0 |}
  else
    match getInferenceCost mode quantity with
    | Throw e => Throw e
    | Return cost =>
        if subscription_covers mode quantity subscription then
          Return {| allowed := true; method := "subscription";
                    reason := "within_subscription_cap"; cost := lit 0 |}
        else
          match BigInt_of_number cost with
          | Throw e => Throw e
          | Return needed =>
              if credits >=? needed then
                Return {| allowed := true; method := "credits";
                          reason := "sufficient_credits"; cost := cost |}
              else
                Return {| allowed := false; method := "deny";
                          reason := "insufficient_balance_and_cap"; cost := cost |}
          end
    end.

(* ===================================================================== *)
(** ** The eligibility helpers of the oracle                              *)
(* ===================================================================== *)

(** [a > b] and [a >= b] on contract values.  Two BigInts are compared as
    integers; as soon as one operand is a Number the comparison is the one
    of the mathematical values, false when a NaN is involved. *)
Definition loose_gt (a b : jsval) : bool :=
  match a, b with
  | JBigInt x, JBigInt y => x >? y
  | _, _ => number_gt (Number_of a) (Number_of b)
  end.

Definition loose_ge (a b : jsval) : bool :=
  match a, b with
  | JBigInt x, JBigInt y => x >=? y
  | _, _ => number_ge (Number_of a) (Number_of b)
  end.

(** The object returned by [validateUserEligibility]. *)
Module Eligibility.
Record t := {
  eligible : bool;
  hasSubscription : bool;
  hasReachedCap : bool;
  reason : string
}.
End Eligibility.

Section Eligibility_methods.

Variable ravenAccess : Contract.

(** [hasActiveSubscription(userAddress)]. *)
Definition hasActiveSubscription (userAddress : string) : M bool :=
  let* subscription := getUserSubscription ravenAccess userAddress in
  match subscription with
  | None => ret false
  | Some sub => ret (loose_gt (planId sub) (JNumber (lit 0)) && active (plan sub))
  end.

(** [hasReachedMonthlyCap(userAddress)]. *)
Definition hasReachedMonthlyCap (userAddress : string) : M bool :=
  let* subscription := getUserSubscription ravenAccess userAddress in
  match subscription with
  | None => ret true
  | Some sub => ret (loose_ge (usedThisWindow sub) (monthlyCap (plan sub)))
  end.

(** [validateUserEligibility(userAddress)]. *)
Definition validateUserEligibility (userAddress : string) : M Eligibility.t :=
  let* hasSubscription := hasActiveSubscription userAddress in
  let* hasReachedCap := hasReachedMonthlyCap userAddress in
  ret {| Eligibility.eligible := hasSubscription && negb hasReachedCap;
         Eligibility.hasSubscription := hasSubscription;
         Eligibility.hasReachedCap := hasReachedCap;
         Eligibility.reason :=
           if negb hasSubscription then "No active subscription"
           else if hasReachedCap then "Monthly cap reached"
           else "Eligible" |}.

End Eligibility_methods.

(** The subscription object built from a view and an [active] flag. *)
Definition subscription_of_view (v : SubscriptionView) (act : bool) : Subscription :=
  {| planId := v_planId v;
     startTimestamp := v_startTs v;
     usedThisWindow := v_usedThisWindow v;
     lastRenewedAt := v_lastRenewedAt v;
     plan := {| priceUnits := v_planPriceUnits v;
                monthlyCap := v_planMonthlyCap v;
                active := act |} |}.

(** A view with another monthly cap. *)
Definition with_monthly_cap (v : SubscriptionView) (cap : jsval) : SubscriptionView :=
  {| v_planId := v_planId v;
     v_startTs := v_startTs v;
     v_usedThisWindow := v_usedThisWindow v;
     v_lastRenewedAt := v_lastRenewedAt v;
     v_planMonthlyCap := cap;
     v_planPriceUnits := v_planPriceUnits v |}.

(** Successive calls of [isRateLimited] for one user, at the instants
    [times]: the verdicts in order and the oracle they leave. *)
Fixpoint isRateLimited_each (times : list Z) (userAddress : string) (s : Oracle)
  : list bool * Oracle :=
  match times with
  | [] => ([], s)
  | now :: rest =>
      match isRateLimited now userAddress s with
      | (Return b, s', _) =>
          let (bs, s'') := isRateLimited_each rest userAddress s' in (b :: bs, s'')
      | (Throw _, s', _) => ([], s')
      end
  end.

(** The timestamps recorded for a user ([this._rateLimiter.get(u) || []]). *)
Definition recorded (s : Oracle) (userAddress : string) : list Z :=
  default [] (_rateLimiter s !! userAddress).

(* ===================================================================== *)
(** ** The JSON-safe serializer of the server                             *)
(* ===================================================================== *)

(** The values [serialize] is applied to: primitives, arrays and plain
    objects, an object being the list of its own enumerable properties in
    property order. *)
Unset Elimination Schemes.
Inductive value :=
| VNull
| VUndefined
| VBool (b : bool)
| VNumber (n : number)
| VString (s : string)
| VBigInt (z : Z)
| VArray (items : list value)
| VObject (fields : list (string * value)).
Set Elimination Schemes.

(** [z.toString()] on a BigInt: the decimal digits, after a minus sign for
    a negative one. *)
Definition BigInt_toString (z : Z) : string :=
  NilZero.string_of_int (Z.to_int z).

(** [serialize(value)].  The assignment [out[k] = ...] creates the own
    property [k], except for the key [__proto__], on which it runs the
    setter of [Object.prototype] and creates none. *)
Fixpoint serialize (v : value) : value :=
  match v with
  | VBigInt z => VString (BigInt_toString z)
  | VArray items => VArray (List.map serialize items)
  | VObject fields =>
      VObject
        ((fix entries (fs : list (string * value)) : list (string * value) :=
            match fs with
            | [] => []
            | (k, x) :: rest =>
                if String.eqb k "__proto__" then entries rest
                else (k, serialize x) :: entries rest
            end) fields)
  | _ => v
  end.

(** Whether a BigInt occurs in a value, at any depth. *)
Fixpoint has_bigint (v : value) : bool :=
  match v with
  | VBigInt _ => true
  | VArray items => existsb has_bigint items
  | VObject fields => existsb (fun kv => has_bigint (snd kv)) fields
  | _ => false
  end.

(** Whether an object of a value, at any depth, has the own key
    [__proto__]. *)
Fixpoint has_proto_key (v : value) : bool :=
  match v with
  | VArray items => existsb has_proto_key items
  | VObject fields =>
      existsb (fun kv => String.eqb (fst kv) "__proto__" || has_proto_key (snd kv)) fields
  | _ => false
  end.

(** The decision object as the authorization route hands it to
    [serialize]. *)
Definition Decision_value (d : Decision) : value :=
  VObject [ ("allowed", VBool (allowed d)); ("method", VString (method d));
            ("reason", VString (reason d)); ("cost", VNumber (cost d)) ].

(** The subscription object as the subscription route hands it to
    [serialize]; a contract value is a Number or a BigInt. *)
Definition jsval_value (v : jsval) : value :=
  match v with
  | JNumber n => VNumber n
  | JBigInt z => VBigInt z
  end.

Definition Subscription_value (sub : Subscription) : value :=
  VObject [ ("planId", jsval_value (planId sub));
            ("startTimestamp", jsval_value (startTimestamp sub));
            ("usedThisWindow", jsval_value (usedThisWindow sub));
            ("lastRenewedAt", jsval_value (lastRenewedAt sub));
            ("plan", VObject [ ("priceUnits", jsval_value (priceUnits (plan sub)));
                               ("monthlyCap", jsval_value (monthlyCap (plan sub)));
                               ("active", VBool (active (plan sub))) ]) ].

(* ===================================================================== *)
(** ** Runs of the methods                                                *)
(* ===================================================================== *)

Lemma isRateLimited_run now u s :
  exists b, isRateLimited now u s =
    (Return b,
     {| _rateLimiter :=
          <[u := List.filter (fun t => now - t <=? 60 * 1000)
                   (default [] (_rateLimiter s !! u)) ++ [now]]> (_rateLimiter s);
        _grantedInitial := _grantedInitial s |},
     [])
  /\ b = (Z.of_nat (length (List.filter (fun t => now - t <=? 60 * 1000)
                              (default [] (_rateLimiter s !! u))))
          >=? RATE_LIMIT_PER_MINUTE).
Proof. eexists. split; reflexivity. Qed.

(** A subscription read never throws and leaves the oracle as it is. *)
Lemma getUserSubscription_run C u s :
  exists o l, getUserSubscription C u s = (Return o, s, l)
              /\ (forall s', getUserSubscription C u s' = (Return o, s', l))
              /\ hd_error l = Some (ReadSubscription u).
Proof.
  unfold getUserSubscription, try_catch, bind, call, ret.
  destruct (c_getUserSubscription C u) as [v|e].
  - destruct (number_gt (Number_of (v_planId v)) (lit 0)).
    + destruct (c_plans C (v_planId v)) as [fp|e];
        do 2 eexists; repeat split; reflexivity.
    + do 2 eexists; repeat split; reflexivity.
  - do 2 eexists; repeat split; reflexivity.
Qed.

(** A balance read never throws, leaves the oracle as it is and performs
    exactly one external read. *)
Lemma getUserCredits_run C u :
  exists cr, forall s', getUserCredits C u s' = (Return cr, s', [ReadCredits u]).
Proof.
  unfold getUserCredits, try_catch, bind, call, ret.
  destruct (c_getUserCredits C u) as [v|e]; cbn; eexists; reflexivity.
Qed.

Local Ltac run_done :=
  cbv beta iota zeta; cbn [app]; rewrite ?app_nil_r; reflexivity.

(** The method is the rate limiter followed, when it lets the call through,
    by [decision] on the fetched state; the oracle is changed by the rate
    limiter only. *)
Lemma authorizeInference_run C now u mode q s b o l cr :
  outcome (isRateLimited now u s) = Return b ->
  getUserSubscription C u (final (isRateLimited now u s))
    = (Return o, final (isRateLimited now u s), l) ->
  getUserCredits C u (final (isRateLimited now u s))
    = (Return cr, final (isRateLimited now u s), [ReadCredits u]) ->
  authorizeInference C now u mode q s =
    if b then (Return rate_limited, final (isRateLimited now u s), [])
    else (decision (_grantedInitial s) u mode q o cr,
          final (isRateLimited now u s), l ++ [ReadCredits u]).
Proof.
  intros Hb Hs Hc.
  destruct (isRateLimited_run now u s) as (b' & Hrun & Hb').
  unfold authorizeInference. unfold bind at 1.
  rewrite Hrun in Hb, Hs, Hc |- *.
  unfold outcome, final in Hb, Hs, Hc |- *. cbn [fst snd] in Hb, Hs, Hc |- *.
  injection Hb as <-.
  destruct b'; [reflexivity|].
  unfold bind at 1. rewrite Hs.
  unfold bind at 1. rewrite Hc.
  unfold bind, get, ret, lift, decision, initial_grant_applies,
    subscription_covers, isSubscribed, effectiveCap.
  cbv beta iota zeta.
  cbn [_grantedInitial].
  destruct (bool_decide (u ∈ _grantedInitial s)), (cr =? 0), o as [sub|];
    cbn [negb andb];
    try destruct (strict_equals (planId sub) (JNumber (lit 0)));
    try run_done;
    destruct (getInferenceCost mode q) as [c|e];
    try run_done;
    try destruct (number_gt (Number_of (planId sub)) (lit 0));
    try destruct (active (plan sub));
    try destruct (number_le _ _);
    cbn [negb andb];
    try run_done;
    destruct (BigInt_of_number c) as [n|e];
    try run_done;
    destruct (cr >=? n); run_done.
Qed.

(* ===================================================================== *)
(** ** Facts about numbers                                                *)
(* ===================================================================== *)

Lemma Qred_inject_Z z : Qred (inject_Z z) = inject_Z z.
Proof.
  pose proof (Qred_correct (inject_Z z)) as He.
  pose proof (gcd_Qred (inject_Z z)) as Hg.
  destruct (Qred (inject_Z z)) as [n d].
  unfold Qeq, inject_Z in *. cbn [Qnum Qden] in *.
  assert (Hn : n = Z.pos d * z) by lia.
  rewrite Hn in Hg.
  rewrite Z.gcd_comm, Z.gcd_mul_diag_l in Hg by lia.
  assert (d = 1%positive) by lia. subst d.
  f_equal. lia.
Qed.

Lemma whole_spec q z : whole q = Some z <-> (q == inject_Z z)%Q.
Proof.
  unfold whole, Qeq, inject_Z. cbn [Qnum Qden].
  destruct (Z.eqb_spec (Qnum q mod Z.pos (Qden q)) 0) as [Hm|Hm]; split.
  - intros [= <-].
    pose proof (Z.div_mod (Qnum q) (Z.pos (Qden q))). lia.
  - intros He. f_equal. rewrite Z.mul_1_r in He. rewrite He.
    apply Z.div_mul. lia.
  - discriminate.
  - intros He. exfalso. apply Hm. rewrite Z.mul_1_r in He. rewrite He.
    apply Z.mod_mul. lia.
Qed.

Lemma whole_Qeq p q : (p == q)%Q -> whole p = whole q.
Proof.
  intros He.
  destruct (whole p) as [z|] eqn:Hp.
  - symmetry. apply whole_spec. rewrite <- He. apply whole_spec, Hp.
  - destruct (whole q) as [z|] eqn:Hq; [|reflexivity].
    apply whole_spec in Hq. rewrite <- He in Hq. apply whole_spec in Hq.
    congruence.
Qed.

Lemma whole_inject_Z z : whole (inject_Z z) = Some z.
Proof. apply whole_spec. reflexivity. Qed.

(** The product of two whole Numbers is the Number of the product. *)
Lemma number_mul_lit a b : number_mul (lit a) (lit b) = lit (a * b).
Proof.
  unfold number_mul, lit. f_equal.
  rewrite <- (Qred_inject_Z (a * b)). apply Qred_complete.
  unfold Qeq, inject_Z, Qmult. cbn. lia.
Qed.

Lemma number_add_lit a b : number_add (lit a) (lit b) = lit (a + b).
Proof.
  unfold number_add, lit. f_equal.
  rewrite <- (Qred_inject_Z (a + b)). apply Qred_complete.
  unfold Qeq, inject_Z, Qplus. cbn. lia.
Qed.

Lemma number_le_lit a b : number_le (lit a) (lit b) = (a <=? b).
Proof.
  unfold number_le, lit, Qle_bool, inject_Z. cbn [Qnum Qden].
  rewrite !Z.mul_1_r. reflexivity.
Qed.

(** What [binary64] accepts and what it refuses: halves and other dyadic
    fractions, but no third or tenth; whole numbers up to 2^53 and the even
    ones just above, but not 2^53 + 1; the largest double, but not 2^1024
    nor 6 * 2^1023; the smallest subnormal 2^-1074, but not its half; 20 +
    2^-40, but not 20 + 2^-60. *)
Example binary64_values :
  binary64 (3 # 2) = true /\ binary64 (1 # 3) = false /\ binary64 (1 # 10) = false /\
  binary64 (inject_Z (2 ^ 53)) = true /\ binary64 (inject_Z (2 ^ 53 + 1)) = false /\
  binary64 (inject_Z (2 ^ 53 + 2)) = true /\
  binary64 (inject_Z ((2 ^ 53 - 1) * 2 ^ 971)) = true /\
  binary64 (inject_Z (2 ^ 1024)) = false /\
  binary64 (inject_Z (6 * 2 ^ 1023)) = false /\
  binary64 (1 # Z.to_pos (2 ^ 1074)) = true /\
  binary64 (1 # Z.to_pos (2 ^ 1075)) = false /\
  binary64 (inject_Z 20 + (1 # Z.to_pos (2 ^ 40))) = true /\
  binary64 (inject_Z 20 + (1 # Z.to_pos (2 ^ 60))) = false.
Proof. split_and!; vm_compute; reflexivity. Qed.

(** Equal rationals are the same value. *)
Lemma binary64_Qeq p q : (p == q)%Q -> binary64 p = binary64 q.
Proof. intros He. unfold binary64. rewrite (Qred_complete _ _ He). reflexivity. Qed.

Lemma trailing_zeros_nonneg p : 0 <= trailing_zeros p.
Proof. induction p; cbn [trailing_zeros]; lia. Qed.

Lemma odd_part_spec p : Z.pos p = Z.pos (odd_part p) * 2 ^ trailing_zeros p.
Proof.
  induction p as [p _|p IH|]; cbn [odd_part trailing_zeros]; try lia.
  pose proof (trailing_zeros_nonneg p).
  rewrite Z.pow_add_r by lia. rewrite Pos2Z.inj_xO, IH. lia.
Qed.

Lemma odd_part_odd p : exists k, Z.pos (odd_part p) = 2 * k + 1 /\ 0 <= k.
Proof.
  induction p as [p _|p IH|]; cbn [odd_part].
  - exists (Z.pos p). lia.
  - exact IH.
  - exists 0. lia.
Qed.

(** Every whole number of magnitude at most 2^53 is a binary64 value. *)
Lemma binary64_whole z : Z.abs z <= 2 ^ 53 -> binary64 (inject_Z z) = true.
Proof.
  intros Hz. unfold binary64. rewrite Qred_inject_Z. cbn [Qnum Qden inject_Z].
  assert (H : forall n, Z.pos n <= 2 ^ 53 ->
            (Pos.eqb (odd_part 1) 1 && (Z.pos (odd_part n) <? 2 ^ 53)
             && (-1074 <=? trailing_zeros n - trailing_zeros 1)
             && (Z.log2 (Z.pos (odd_part n)) + (trailing_zeros n - trailing_zeros 1)
                 <=? 1023))
            = true).
  { intros n Hn. cbn [odd_part trailing_zeros Pos.eqb andb].
    pose proof (odd_part_spec n) as Hs. pose proof (trailing_zeros_nonneg n) as Ht.
    destruct (odd_part_odd n) as (k & Hk & Hk0).
    assert (Hpow : 1 <= 2 ^ trailing_zeros n).
    { apply Z.pow_le_mono_r with (a := 2) (b := 0) (c := trailing_zeros n) in Ht; lia. }
    assert (Hm : Z.pos (odd_part n) <= 2 ^ 53) by nia.
    assert (Hm' : Z.pos (odd_part n) < 2 ^ 53).
    { change (2 ^ 53) with (2 * 2 ^ 52) in *. lia. }
    assert (Hlog : Z.log2 (Z.pos (odd_part n)) + trailing_zeros n <= 53).
    { rewrite Z.add_comm, <- Z.log2_mul_pow2 by lia. rewrite <- Hs.
      change 53 with (Z.log2 (2 ^ 53)). apply Z.log2_le_mono. exact Hn. }
    rewrite Z.sub_0_r.
    apply andb_true_intro; split; [apply andb_true_intro; split|].
    - apply Z.ltb_lt. exact Hm'.
    - apply Z.leb_le. lia.
    - apply Z.leb_le. lia. }
  destruct z as [|n|n]; [reflexivity| |]; apply H; cbn in Hz; exact Hz.
Qed.

(** Whole usages, caps and quantities up to 2^53 whose sum stays there make
    the cap test exact, and a whole quantity whose cost is at most 2^53
    makes the product exact. *)
Lemma exact_cap_test_whole mode sub a k c :
  Number_of (usedThisWindow sub) = lit a -> effectiveCap mode sub = lit c ->
  0 <= a -> 0 <= k -> a + k <= 2 ^ 53 -> Z.abs c <= 2 ^ 53 ->
  exact_cap_test mode (lit k) (Some sub) = true.
Proof.
  intros Ha Hc Ha0 Hk0 Hsum Hc0. unfold exact_cap_test.
  destruct (isSubscribed (Some sub)); [|reflexivity].
  rewrite Ha, Hc. unfold lit.
  rewrite !binary64_whole by lia. cbn [andb].
  replace (binary64 (inject_Z a + inject_Z k)) with (binary64 (inject_Z (a + k))).
  - apply binary64_whole. lia.
  - apply binary64_Qeq. rewrite inject_Z_plus. reflexivity.
Qed.

Lemma exact_cost_whole mode unit k :
  unitCost mode = Some unit -> Z.abs k <= 2 ^ 53 -> Z.abs (unit * k) <= 2 ^ 53 ->
  exact_cost mode (lit k) = true.
Proof.
  unfold unitCost, exact_cost. destruct (COSTS mode) as [|u|]; try discriminate.
  intros [= ->] Hk Hp. unfold lit. rewrite binary64_whole by exact Hk. cbn [andb].
  replace (binary64 (inject_Z unit * inject_Z k)) with (binary64 (inject_Z (unit * k))).
  - apply binary64_whole. exact Hp.
  - apply binary64_Qeq. rewrite inject_Z_mult. reflexivity.
Qed.

(** A finite product that denotes the whole number [n] is the Number [n]. *)
Lemma number_mul_whole (u : Z) (q : Q) (n : Z) :
  (inject_Z u * q == inject_Z n)%Q ->
  number_mul (lit u) (Fin q) = lit n /\ BigInt_of_number (lit n) = Return n.
Proof.
  intros He. split.
  - unfold number_mul, lit. f_equal.
    rewrite <- (Qred_inject_Z n). apply Qred_complete, He.
  - unfold BigInt_of_number, lit. rewrite whole_inject_Z. reflexivity.
Qed.

(** A value that converts to a positive Number is not strictly equal to the
    Number zero. *)
Lemma positive_not_strict_zero v :
  number_gt (Number_of v) (lit 0) = true ->
  strict_equals v (JNumber (lit 0)) = false.
Proof.
  destruct v as [[p| | |]|z]; cbn; try reflexivity; try discriminate.
  intros Hgt. apply negb_true_iff in Hgt.
  destruct (Qeq_bool p (inject_Z 0)) eqn:He; [|reflexivity].
  apply Qeq_bool_iff in He.
  assert (Hle : Qle_bool p (inject_Z 0) = true).
  { apply Qle_bool_iff. rewrite He. apply Qle_refl. }
  congruence.
Qed.

(** A BigInt is never strictly equal to a Number. *)
Lemma bigint_never_strict_number z n : strict_equals (JBigInt z) (JNumber n) = false.
Proof. reflexivity. Qed.

(* ===================================================================== *)
(** ** The cost table                                                     *)
(* ===================================================================== *)

Lemma unitCost_cases mode unit :
  unitCost mode = Some unit <->
  (mode = "basic" /\ unit = 1) \/ (mode = "tags" /\ unit = 2) \/
  (mode = "price_accuracy" /\ unit = 4) \/ (mode = "full" /\ unit = 6).
Proof.
  unfold unitCost, COSTS.
  destruct (String.eqb_spec mode "basic") as [->|H1]; [cbn; split; [intros [= <-]; tauto|]|].
  { intros [[_ ->]|[[? _]|[[? _]|[? _]]]]; try reflexivity; discriminate. }
  destruct (String.eqb_spec mode "tags") as [->|H2]; [cbn; split; [intros [= <-]; tauto|]|].
  { intros [[? _]|[[_ ->]|[[? _]|[? _]]]]; try reflexivity; discriminate. }
  destruct (String.eqb_spec mode "price_accuracy") as [->|H3];
    [cbn; split; [intros [= <-]; tauto|]|].
  { intros [[? _]|[[? _]|[[_ ->]|[? _]]]]; try reflexivity; discriminate. }
  destruct (String.eqb_spec mode "full") as [->|H4]; [cbn; split; [intros [= <-]; tauto|]|].
  { intros [[? _]|[[? _]|[[? _]|[_ ->]]]]; try reflexivity; discriminate. }
  split.
  - destruct (existsb _ _); discriminate.
  - intros [[? _]|[[? _]|[[? _]|[? _]]]]; contradiction.
Qed.

Lemma unitCost_positive mode unit : unitCost mode = Some unit -> 0 < unit.
Proof. rewrite unitCost_cases. intros [[_ ->]|[[_ ->]|[[_ ->]|[_ ->]]]]; lia. Qed.

Lemma unitCost_COSTS mode unit : unitCost mode = Some unit -> COSTS mode = OwnCost unit.
Proof. unfold unitCost. destruct (COSTS mode); congruence. Qed.

(** Known mode, positive finite quantity: the product with the unit cost. *)
Lemma getInferenceCost_known mode unit q :
  unitCost mode = Some unit -> (0 < q)%Q ->
  getInferenceCost mode (Fin q) = Return (number_mul (lit unit) (Fin q)).
Proof.
  intros Hu Hq. pose proof (unitCost_positive _ _ Hu) as Hpos.
  unfold getInferenceCost. rewrite (unitCost_COSTS _ _ Hu). cbn [falsy slot_number].
  destruct (Z.eqb_spec unit 0) as [->|_]; [lia|].
  cbn [isFinite negb orb number_le lit].
  destruct (Qle_bool q (inject_Z 0)) eqn:Hle; [|reflexivity].
  apply Qle_bool_iff in Hle. exfalso. apply (Qlt_not_le _ _ Hq Hle).
Qed.

(** The cost does not decrease when the quantity grows. *)
Lemma getInferenceCost_monotone mode unit q1 q2 :
  unitCost mode = Some unit -> (0 < q1)%Q -> (q1 <= q2)%Q ->
  exists c1 c2,
    getInferenceCost mode (Fin q1) = Return (Fin c1) /\
    getInferenceCost mode (Fin q2) = Return (Fin c2) /\
    (c1 <= c2)%Q.
Proof.
  intros Hu H1 H12.
  assert (H2 : (0 < q2)%Q) by (eapply Qlt_le_trans; eassumption).
  rewrite (getInferenceCost_known _ _ _ Hu H1), (getInferenceCost_known _ _ _ Hu H2).
  do 2 eexists. repeat split.
  rewrite !Qred_correct.
  apply Qmult_le_l; [|exact H12].
  pose proof (unitCost_positive _ _ Hu). unfold Qlt, inject_Z. cbn. lia.
Qed.

(** A mode that resolves to nothing is refused. *)
Lemma getInferenceCost_unresolved mode quantity :
  COSTS mode = Undefined -> getInferenceCost mode quantity = Throw UnknownMode.
Proof. intros H. unfold getInferenceCost. rewrite H. reflexivity. Qed.

(** A quantity that is not a positive finite number is refused for every
    mode whose table read is truthy. *)
Lemma getInferenceCost_bad_quantity mode quantity :
  falsy (COSTS mode) = false ->
  isFinite quantity = false \/ number_le quantity (lit 0) = true ->
  getInferenceCost mode quantity = Throw InvalidQuantity.
Proof.
  intros Hm Hq. unfold getInferenceCost. rewrite Hm.
  destruct Hq as [->| ->]; [reflexivity|].
  rewrite orb_true_r. reflexivity.
Qed.

Lemma unitCost_truthy mode unit : unitCost mode = Some unit -> falsy (COSTS mode) = false.
Proof.
  intros Hu. pose proof (unitCost_positive _ _ Hu).
  rewrite (unitCost_COSTS _ _ Hu). cbn. lia.
Qed.

(** A cost that [BigInt(...)] accepts comes from an own entry of the table
    and a positive finite quantity. *)
Lemma getInferenceCost_whole mode quantity c n :
  getInferenceCost mode quantity = Return c ->
  BigInt_of_number c = Return n ->
  exists unit q, unitCost mode = Some unit /\ quantity = Fin q /\ (0 < q)%Q
                 /\ c = number_mul (lit unit) quantity.
Proof.
  unfold getInferenceCost, unitCost.
  destruct (COSTS mode) as [|unit|]; cbn [falsy slot_number]; try discriminate.
  - destruct (unit =? 0); [discriminate|].
    destruct quantity as [q| | |]; cbn [isFinite negb orb]; try discriminate.
    destruct (number_le (Fin q) (lit 0)) eqn:Hle; [discriminate|].
    intros [= <-] _. exists unit, q. repeat split.
    cbn in Hle. apply not_true_iff_false in Hle.
    apply Qnot_le_lt. intros Hc. apply Hle, Qle_bool_iff, Hc.
  - destruct quantity as [q| | |]; cbn [isFinite negb orb]; try discriminate.
    destruct (number_le (Fin q) (lit 0)); [discriminate|].
    intros [= <-]. cbn. discriminate.
Qed.

(* ===================================================================== *)
(** ** The cost computation and the credit calculator                     *)
(* ===================================================================== *)

(** The unit costs of the four modes. *)
Example unit_costs :
  unitCost "basic" = Some 1 /\ unitCost "tags" = Some 2 /\
  unitCost "price_accuracy" = Some 4 /\ unitCost "full" = Some 6.
Proof. split_and!; reflexivity. Qed.

(** For a whole quantity the cost is the whole product. *)
Lemma getInferenceCost_whole_quantity mode unit k :
  unitCost mode = Some unit -> 0 < k ->
  getInferenceCost mode (lit k) = Return (lit (unit * k)).
Proof.
  intros Hu Hk. unfold lit at 1.
  rewrite (getInferenceCost_known _ _ _ Hu).
  - f_equal. apply number_mul_lit.
  - unfold Qlt, inject_Z. cbn. lia.
Qed.

(** A name inherited from [Object.prototype] passes the mode check: with a
    positive finite quantity the cost computation returns NaN. *)
Lemma getInferenceCost_inherited mode q :
  In mode Object_prototype_keys -> (0 < q)%Q ->
  unitCost mode = None /\ getInferenceCost mode (Fin q) = Return NaN.
Proof.
  intros Hin Hq.
  assert (Hc : COSTS mode = Inherited).
  { cbn in Hin. repeat (destruct Hin as [<-|Hin]; [reflexivity|]). contradiction. }
  unfold unitCost, getInferenceCost. rewrite Hc. split; [reflexivity|].
  cbn [falsy isFinite negb orb number_le lit slot_number].
  destruct (Qle_bool q (inject_Z 0)) eqn:Hle; [|reflexivity].
  apply Qle_bool_iff in Hle. exfalso. apply (Qlt_not_le _ _ Hq Hle).
Qed.

(** C8.  The code at inputs on which it departs from the claim: the modes
    constructor and toString are outside the four modes of the cost table,
    yet [this.COSTS[m]] finds them on [Object.prototype], the check
    [!unit] lets them through, and the cost computation returns NaN
    instead of throwing 'Unknown mode'. *)
Theorem inherited_mode_is_not_refused :
  unitCost "constructor" = None /\
  COSTS "constructor" = Inherited /\
  getInferenceCost "constructor" (lit 1) = Return NaN /\
  unitCost "toString" = None /\
  getInferenceCost "toString" (lit 2) = Return NaN.
Proof. split_and!; reflexivity. Qed.

(** The same modes in an authorization: with an active subscription that has
    room the call is allowed; without one it throws the RangeError of
    [BigInt(NaN)]. *)
Example inherited_mode_authorization :
  outcome (authorizeInference
             (ledger (Return (view 1 10 20)) (Return (plan_view 20 true)) (Return 0))
             1000 alice "constructor" (lit 5) fresh) =
    Return {| allowed := true; method := "subscription";
              reason := "within_subscription_cap"; cost := lit 0 |} /\
  outcome (authorizeInference
             (ledger (Return (view 0 0 0)) (Throw ReadFailure) (Return 10))
             1000 alice "constructor" (lit 5) fresh) = Throw NotAnInteger.
Proof. split; reflexivity. Qed.





(* ===================================================================== *)
(** ** The authorization engine                                           *)
(* ===================================================================== *)

(** Every call decomposes into the rate-limiter check, the two fetches and
    [decision]. *)
Lemma authorizeInference_cases C now u mode q s :
  exists b o l cr,
    outcome (isRateLimited now u s) = Return b /\
    outcome (getUserSubscription C u (final (isRateLimited now u s))) = Return o /\
    outcome (getUserCredits C u (final (isRateLimited now u s))) = Return cr /\
    hd_error l = Some (ReadSubscription u) /\
    _grantedInitial (final (isRateLimited now u s)) = _grantedInitial s /\
    authorizeInference C now u mode q s =
      if b then (Return rate_limited, final (isRateLimited now u s), [])
      else (decision (_grantedInitial s) u mode q o cr,
            final (isRateLimited now u s), l ++ [ReadCredits u]).
Proof.
  destruct (isRateLimited_run now u s) as (b & Hrun & _).
  destruct (getUserSubscription_run C u (final (isRateLimited now u s)))
    as (o & l & Hs & _ & Hl).
  destruct (getUserCredits_run C u) as (cr & Hc).
  exists b, o, l, cr.
  assert (Hb : outcome (isRateLimited now u s) = Return b) by (rewrite Hrun; reflexivity).
  split_and!.
  - exact Hb.
  - rewrite Hs. reflexivity.
  - rewrite Hc. reflexivity.
  - exact Hl.
  - rewrite Hrun. reflexivity.
  - apply authorizeInference_run; [exact Hb | exact Hs | apply Hc].
Qed.

(** Decompose a call and identify the components with the ones named by the
    hypotheses [Hlim], [Hsub] and [Hcr] when they are there. *)
Local Ltac decompose_call C now u mode q s :=
  let b := fresh "b" in let o := fresh "o" in let l := fresh "l" in
  let cr := fresh "cr" in
  let Hb := fresh "Hb" in let Ho := fresh "Ho" in let Hc := fresh "Hc" in
  let Hl := fresh "Hl" in let Hg := fresh "Hg" in let Hrun := fresh "Hrun" in
  destruct (authorizeInference_cases C now u mode q s)
    as (b & o & l & cr & Hb & Ho & Hc & Hl & Hg & Hrun);
  rewrite Hrun;
  repeat match goal with
  | H : outcome (isRateLimited now u s) = Return _ |- _ =>
      rewrite H in Hb; injection Hb as <-; clear H
  | H : outcome (getUserSubscription C u _) = Return _ |- _ =>
      rewrite H in Ho; injection Ho as <-; clear H
  | H : outcome (getUserCredits C u _) = Return _ |- _ =>
      rewrite H in Hc; injection Hc as <-; clear H
  end.

(** No call changes the initial-grant guard. *)
Lemma authorizeInference_preserves_guard C now u mode q s :
  _grantedInitial (final (authorizeInference C now u mode q s)) = _grantedInitial s.
Proof.
  decompose_call C now u mode q s.
  destruct b; exact Hg.
Qed.


(** The cap of C1 is the global one exactly for the two exempt modes. *)
Lemma effectiveCap_cases mode sub :
  effectiveCap mode sub =
    if bool_decide (mode = "price_accuracy" \/ mode = "full")
    then lit 3000 else Number_of (monthlyCap (plan sub)).
Proof.
  unfold effectiveCap.
  destruct (String.eqb_spec mode "price_accuracy") as [->|H1]; [reflexivity|].
  destruct (String.eqb_spec mode "full") as [->|H2]; [reflexivity|].
  rewrite bool_decide_eq_false_2; [reflexivity|]. intros [?|?]; contradiction.
Qed.


(** The cap-exempt scenario of the specification: monthly cap 5, usage 2900,
    mode full, quantity 50, allowed through the global cap. *)
Example cap_exempt_global_ceiling :
  outcome (authorizeInference
             (ledger (Return (view 1 2900 5)) (Return (plan_view 5 true)) (Return 0))
             1000 alice "full" (lit 50) fresh) =
    Return {| allowed := true; method := "subscription";
              reason := "within_subscription_cap"; cost := lit 0 |}.
Proof. reflexivity. Qed.

(** Outside the preconditions of the engine the cost computation of step 4
    comes first: with an active subscription that has room, a quantity of
    zero, or a mode that the cost table does not have, makes the call throw. *)
Example invalid_request_with_subscription :
  let C := ledger (Return (view 1 10 20)) (Return (plan_view 20 true)) (Return 0) in
  let sub := {| planId := JBigInt 1; startTimestamp := JBigInt 0;
                usedThisWindow := JBigInt 10; lastRenewedAt := JBigInt 0;
                plan := {| priceUnits := JBigInt 0; monthlyCap := JBigInt 20;
                           active := true |} |} in
  outcome (isRateLimited 1000 alice fresh) = Return false /\
  outcome (getUserSubscription C alice (final (isRateLimited 1000 alice fresh)))
    = Return (Some sub) /\
  initial_grant_applies (_grantedInitial fresh) alice (Some sub) 0 = false /\
  number_gt (Number_of (planId sub)) (lit 0) = true /\
  active (plan sub) = true /\
  number_le (number_add (Number_of (usedThisWindow sub)) (lit 0))
            (effectiveCap "basic" sub) = true /\
  outcome (authorizeInference C 1000 alice "basic" (lit 0) fresh)
    = Throw InvalidQuantity /\
  number_le (number_add (Number_of (usedThisWindow sub)) (lit 5))
            (effectiveCap "premium" sub) = true /\
  outcome (authorizeInference C 1000 alice "premium" (lit 5) fresh)
    = Throw UnknownMode.
Proof. cbv zeta. repeat split; reflexivity. Qed.

(** The part of C2 that the code delivers: a user who is not in the guard,
    whose balance is zero and whose subscription is absent, or carries a plan
    id that is the Number zero, is given the initial grant whatever the mode
    and the quantity, and the guard is left as it was. *)
Lemma initial_grant_absent_or_number_zero C now u mode quantity s o cr :
  outcome (isRateLimited now u s) = Return false ->
  outcome (getUserSubscription C u (final (isRateLimited now u s))) = Return o ->
  outcome (getUserCredits C u (final (isRateLimited now u s))) = Return cr ->
  u ∉ _grantedInitial s ->
  cr = 0 ->
  (o = None \/ exists sub z, o = Some sub /\ planId sub = JNumber (Fin z) /\ (z == 0)%Q) ->
  outcome (authorizeInference C now u mode quantity s) =
    Return {| allowed := true; method := "initial_grant";
              reason := "initial_50_credits"; cost := lit 0 |}
  /\ _grantedInitial (final (authorizeInference C now u mode quantity s))
     = _grantedInitial s.
Proof.
  intros Hlim Hsub Hcr Hg -> Ho.
  split; [|apply authorizeInference_preserves_guard].
  decompose_call C now u mode quantity s.
  cbn [outcome fst]. unfold decision, initial_grant_applies.
  rewrite bool_decide_eq_false_2 by exact Hg. cbn [negb andb Z.eqb].
  destruct Ho as [->|(sub & z & -> & Hp & Hz)]; [reflexivity|].
  rewrite Hp. cbn [strict_equals number_eq lit].
  assert (Hb : Qeq_bool z (inject_Z 0) = true) by (apply Qeq_eq_bool; exact Hz).
  rewrite Hb. reflexivity.
Qed.

(** The initial-grant scenario of the specification: zero credits and no
    subscription record (here: the subscription read fails). *)
Example initial_grant_no_record :
  outcome (authorizeInference
             (ledger (Throw ReadFailure) (Throw ReadFailure) (Return 0))
             1000 alice "full" (lit 3) fresh) =
    Return {| allowed := true; method := "initial_grant";
              reason := "initial_50_credits"; cost := lit 0 |}.
Proof. reflexivity. Qed.

(** C2.  The code at an input on which it departs from the claim: the
    subscription view of a user without a subscription carries the plan id
    [0n], a BigInt; the guard does not hold the user and the balance is
    zero.  [subscription.planId === 0] compares that BigInt with a Number, so
    step 3 is skipped and the call ends in a denial. *)
Theorem initial_grant_missed_on_bigint_plan_zero :
  let C := ledger (Return (view 0 0 0)) (Throw ReadFailure) (Return 0) in
  let sub := {| planId := JBigInt 0; startTimestamp := JBigInt 0;
                usedThisWindow := JBigInt 0; lastRenewedAt := JBigInt 0;
                plan := {| priceUnits := JBigInt 0; monthlyCap := JBigInt 0;
                           active := false |} |} in
  outcome (isRateLimited 1000 alice fresh) = Return false /\
  (alice ∉ _grantedInitial fresh) /\
  outcome (getUserCredits C alice (final (isRateLimited 1000 alice fresh))) = Return 0 /\
  outcome (getUserSubscription C alice (final (isRateLimited 1000 alice fresh)))
    = Return (Some sub) /\
  Number_of (planId sub) = lit 0 /\
  strict_equals (planId sub) (JNumber (lit 0)) = false /\
  outcome (authorizeInference C 1000 alice "basic" (lit 1) fresh) =
    Return {| allowed := false; method := "deny";
              reason := "insufficient_balance_and_cap"; cost := lit 1 |}.
Proof.
  cbv zeta. split_and!; try reflexivity.
  cbn. apply not_elem_of_empty.
Qed.

(** The privileged grant operation on the same ledger: it converts the plan
    id with [Number(...)] before comparing, finds the user eligible, submits
    the award and marks the guard. *)
Example grant_operation_on_bigint_plan_zero :
  let C := ledger (Return (view 0 0 0)) (Throw ReadFailure) (Return 0) in
  let run := grantInitialCreditsIfEligible C (Some "oracle") alice fresh in
  outcome run = Return (Some 1) /\
  calls run = [ReadCredits alice; ReadSubscription alice;
               AwardCredits alice 50 "initial_grant"] /\
  _grantedInitial (final run) = {[ alice ]} ∪ ∅.
Proof. cbv zeta. split_and!; reflexivity. Qed.

(** C3 (as amended).  In a call that the rate limiter lets through, and in
    which neither the initial-grant condition nor the subscription condition
    holds, when the mode is one of the cost table, the quantity is a positive
    finite number, the cost [unitCost(mode) * quantity] is a whole number
    [n], and the arithmetic of the call is exact (the product and, for a
    subscribed user, the sum of the cap test are computed without rounding:
    [exact_request]): the call returns allowed / credits /
    sufficient_credits when the balance is at least [n], and not allowed /
    deny / insufficient_balance_and_cap otherwise, with the cost [n] in
    both. *)
Theorem credit_fallback C now userAddress mode quantity s o cr unit q n :
  outcome (isRateLimited now userAddress s) = Return false ->
  outcome (getUserSubscription C userAddress (final (isRateLimited now userAddress s)))
    = Return o ->
  outcome (getUserCredits C userAddress (final (isRateLimited now userAddress s)))
    = Return cr ->
  initial_grant_applies (_grantedInitial s) userAddress o cr = false ->
  subscription_covers mode quantity o = false ->
  unitCost mode = Some unit ->
  quantity = Fin q ->
  (0 < q)%Q ->
  (inject_Z unit * q == inject_Z n)%Q ->
  exact_request mode quantity o = true ->
  number_mul (lit unit) quantity = lit n /\
  outcome (authorizeInference C now userAddress mode quantity s) =
    Return (if bool_decide (cr >= n)
            then {| allowed := true; method := "credits";
                    reason := "sufficient_credits"; cost := lit n |}
            else {| allowed := false; method := "deny";
                    reason := "insufficient_balance_and_cap"; cost := lit n |}).
Proof.
  intros Hlim Hsub Hcr Hini Hcov Hunit -> Hq Hn _.
  destruct (number_mul_whole _ _ _ Hn) as [Hmul Hbig].
  split; [exact Hmul|].
  decompose_call C now userAddress mode (Fin q) s.
  cbn [outcome fst]. unfold decision. rewrite Hini.
  rewrite (getInferenceCost_known _ _ _ Hunit Hq), Hcov, Hmul, Hbig.
  destruct (Z.geb_spec cr n) as [Hge|Hlt].
  - rewrite bool_decide_eq_true_2 by lia. reflexivity.
  - rewrite bool_decide_eq_false_2 by lia. reflexivity.
Qed.

(** An instance of C3: the credit-fallback scenario of the specification
    (no active subscription, balance 10, mode tags, quantity 3, cost 6). *)
Lemma credit_fallback_witness :
  number_mul (lit 2) (lit 3) = lit 6 /\
  outcome (authorizeInference
             (ledger (Return (view 0 0 0)) (Throw ReadFailure) (Return 10))
             1000 alice "tags" (lit 3) fresh) =
    Return (if bool_decide (10 >= 6)
            then {| allowed := true; method := "credits";
                    reason := "sufficient_credits"; cost := lit 6 |}
            else {| allowed := false; method := "deny";
                    reason := "insufficient_balance_and_cap"; cost := lit 6 |}).
Proof.
  apply (credit_fallback
           (ledger (Return (view 0 0 0)) (Throw ReadFailure) (Return 10))
           1000 alice "tags" (lit 3) fresh
           (Some {| planId := JBigInt 0; startTimestamp := JBigInt 0;
                    usedThisWindow := JBigInt 0; lastRenewedAt := JBigInt 0;
                    plan := {| priceUnits := JBigInt 0; monthlyCap := JBigInt 0;
                               active := false |} |})
           10 2 (inject_Z 3) 6); reflexivity.
Defined.

(** The same user with a balance of 5 is denied, with the cost 6. *)
Example credit_fallback_denied :
  outcome (authorizeInference
             (ledger (Return (view 0 0 0)) (Throw ReadFailure) (Return 5))
             1000 alice "tags" (lit 3) fresh) =
    Return {| allowed := false; method := "deny";
              reason := "insufficient_balance_and_cap"; cost := lit 6 |}.
Proof. reflexivity. Qed.

(** C3 as stated fails.  With a balance of 10 and no subscription the first
    three branches decline.  For the known mode basic and the positive
    quantity 3/2 the cost is 3/2 (the product with 1 is exact) and the
    balance exceeds it, yet the call throws the RangeError of
    [BigInt(cost)] instead of returning the credits decision. *)
Lemma credit_fallback_invalid_cost :
  let C := ledger (Return (view 0 0 0)) (Throw ReadFailure) (Return 10) in
  let s1 := final (isRateLimited 1000 alice fresh) in
  outcome (isRateLimited 1000 alice fresh) = Return false /\
  (exists o,
     outcome (getUserSubscription C alice s1) = Return o /\
     initial_grant_applies (_grantedInitial fresh) alice o 10 = false /\
     subscription_covers "basic" (Fin (3 # 2)) o = false /\
     exact_request "basic" (Fin (3 # 2)) o = true) /\
  outcome (getUserCredits C alice s1) = Return 10 /\
  unitCost "basic" = Some 1 /\
  number_mul (lit 1) (Fin (3 # 2)) = Fin (3 # 2) /\
  (3 # 2 <= inject_Z 10)%Q /\
  outcome (authorizeInference C 1000 alice "basic" (Fin (3 # 2)) fresh)
    = Throw NotAnInteger.
Proof.
  cbv zeta. split_and!; try reflexivity.
  - eexists. split_and!; reflexivity.
  - unfold Qle. cbn. lia.
Qed.

(* ===================================================================== *)
(** ** The rate limiter                                                   *)
(* ===================================================================== *)

(** What a call does when the limiter finds the threshold reached. *)
Lemma limited_call C now u mode quantity s :
  RATE_LIMIT_PER_MINUTE <=
    Z.of_nat (length (List.filter (fun t => now - t <=? 60 * 1000)
                        (default [] (_rateLimiter s !! u)))) ->
  authorizeInference C now u mode quantity s =
    (Return rate_limited,
     {| _rateLimiter :=
          <[u := List.filter (fun t => now - t <=? 60 * 1000)
                   (default [] (_rateLimiter s !! u)) ++ [now]]> (_rateLimiter s);
        _grantedInitial := _grantedInitial s |},
     []).
Proof.
  intros Hlen.
  destruct (authorizeInference_cases C now u mode quantity s)
    as (b & o & l & cr & Hb & _ & _ & _ & _ & Hrun).
  destruct (isRateLimited_run now u s) as (b' & Hr & Hb').
  rewrite Hr in Hb, Hrun. cbn [outcome final fst snd] in Hb, Hrun.
  injection Hb as <-.
  assert (b' = true) as -> by (rewrite Hb'; apply Z.geb_le; exact Hlen).
  exact Hrun.
Qed.

(** A filter keeps a list whose elements all pass. *)
Lemma filter_all_pass {A} (f : A -> bool) (l : list A) :
  List.Forall (fun x => f x = true) l -> List.filter f l = l.
Proof.
  induction 1 as [|x l Hx _ IH]; [reflexivity|].
  cbn. rewrite Hx, IH. reflexivity.
Qed.

(** C4.  When the user already has 30 or more recorded timestamps within
    the trailing 60 seconds, the call returns not allowed / deny /
    rate_limited with cost 0, performs no external read, and still appends
    the current timestamp to the sequence of the user (the sequences of the
    other users and the guard are untouched).  A further call, at an instant
    at which those timestamps are still within the window, is limited as
    well and appends its own timestamp. *)
Theorem rate_limited_call C now userAddress mode quantity s :
  let recent := List.filter (fun t => now - t <=? 60 * 1000)
                  (default [] (_rateLimiter s !! userAddress)) in
  30 <= Z.of_nat (length recent) ->
  let run := authorizeInference C now userAddress mode quantity s in
  outcome run = Return {| allowed := false; method := "deny";
                          reason := "rate_limited"; cost := lit 0 |} /\
  calls run = [] /\
  _rateLimiter (final run) !! userAddress = Some (recent ++ [now]) /\
  (forall other, other <> userAddress ->
     _rateLimiter (final run) !! other = _rateLimiter s !! other) /\
  _grantedInitial (final run) = _grantedInitial s /\
  (forall C' now' mode' quantity',
     List.Forall (fun t => now' - t <= 60 * 1000) (recent ++ [now]) ->
     let run' := authorizeInference C' now' userAddress mode' quantity' (final run) in
     outcome run' = Return {| allowed := false; method := "deny";
                              reason := "rate_limited"; cost := lit 0 |} /\
     calls run' = [] /\
     _rateLimiter (final run') !! userAddress = Some (recent ++ [now; now'])).
Proof.
  intros recent Hlen run.
  assert (Hrun : run = _) by exact (limited_call C now userAddress mode quantity s Hlen).
  fold recent in Hrun. rewrite Hrun. cbn [outcome calls final fst snd _rateLimiter _grantedInitial].
  split_and!; try reflexivity.
  - apply lookup_insert_eq.
  - intros other Hne. apply lookup_insert_ne. congruence.
  - intros C' now' mode' quantity' Hall.
    assert (Hkeep :
      List.filter (fun t => now' - t <=? 60 * 1000)
        (default [] (<[userAddress := recent ++ [now]]> (_rateLimiter s) !! userAddress))
      = recent ++ [now]).
    { rewrite lookup_insert_eq. cbn [default].
      apply filter_all_pass. eapply List.Forall_impl; [|exact Hall].
      cbn. intros t Ht. apply Z.leb_le, Ht. }
    rewrite limited_call.
    + cbn [outcome calls final fst snd _rateLimiter _grantedInitial].
      rewrite Hkeep. split_and!; try reflexivity.
      rewrite lookup_insert_eq, <- app_assoc. reflexivity.
    + cbn [_rateLimiter]. rewrite Hkeep.
      rewrite length_app. cbn [length]. unfold RATE_LIMIT_PER_MINUTE. lia.
Qed.

(** An instance of C4: thirty requests at the instant 5000, a call at the
    instant 61000 and a further one at the instant 62000. *)
Lemma rate_limited_call_witness :
  let C := ledger (Return (view 0 0 0)) (Throw ReadFailure) (Return 10) in
  let run := authorizeInference C 61000 alice "basic" (lit 1) (busy alice 30 5000) in
  let run' := authorizeInference C 62000 alice "full" (lit 2) (final run) in
  outcome run = Return {| allowed := false; method := "deny";
                          reason := "rate_limited"; cost := lit 0 |} /\
  calls run = [] /\
  _rateLimiter (final run) !! alice = Some (repeat 5000 30 ++ [61000]) /\
  outcome run' = Return {| allowed := false; method := "deny";
                           reason := "rate_limited"; cost := lit 0 |} /\
  calls run' = [] /\
  _rateLimiter (final run') !! alice = Some (repeat 5000 30 ++ [61000; 62000]).
Proof.
  pose proof (rate_limited_call
                (ledger (Return (view 0 0 0)) (Throw ReadFailure) (Return 10))
                61000 alice "basic" (lit 1) (busy alice 30 5000)) as H.
  cbv zeta in H.
  destruct H as (H1 & H2 & H3 & _ & _ & H6).
  - vm_compute. discriminate.
  - destruct (H6 (ledger (Return (view 0 0 0)) (Throw ReadFailure) (Return 10))
                 62000 "full" (lit 2)) as (H7 & H8 & H9).
    + apply List.Forall_forall. intros t Hin. vm_compute in Hin.
      repeat (destruct Hin as [<-|Hin]; [vm_compute; discriminate|]). destruct Hin.
    + cbv zeta. split_and!; [exact H1 | exact H2 | exact H3 | exact H7 | exact H8 | exact H9].
Defined.

(** The rate-limiting scenario of the specification: the 31st request within
    the window is limited; one millisecond past the window the user is let
    through again. *)
Example rate_limit_window :
  outcome (isRateLimited 61000 alice (busy alice 30 1000)) = Return true /\
  outcome (isRateLimited 61001 alice (busy alice 30 1000)) = Return false.
Proof. split; reflexivity. Qed.

(* ===================================================================== *)
(** ** Validation, cost field and read failures                           *)
(* ===================================================================== *)

(** C5 (as amended).  When the mode resolves to nothing in the cost table
    (it is neither one of the four modes nor a name that the table object
    inherits, such as constructor), or the mode is one of the four and the
    quantity is not a positive finite number, a call that the rate limiter lets through and that does
    not meet the initial-grant condition throws the validation error of the
    cost computation ('Unknown mode', respectively 'quantity must be > 0'),
    and it does so after the subscription and the balance have been read. *)
Theorem invalid_request_fails_after_reads C now userAddress mode quantity s o cr :
  outcome (isRateLimited now userAddress s) = Return false ->
  outcome (getUserSubscription C userAddress (final (isRateLimited now userAddress s)))
    = Return o ->
  outcome (getUserCredits C userAddress (final (isRateLimited now userAddress s)))
    = Return cr ->
  initial_grant_applies (_grantedInitial s) userAddress o cr = false ->
  COSTS mode = Undefined
  \/ (unitCost mode <> None
      /\ (isFinite quantity = false \/ number_le quantity (lit 0) = true)) ->
  let run := authorizeInference C now userAddress mode quantity s in
  outcome run = Throw (match unitCost mode with
                       | None => UnknownMode
                       | Some _ => InvalidQuantity
                       end) /\
  hd_error (calls run) = Some (ReadSubscription userAddress) /\
  In (ReadCredits userAddress) (calls run).
Proof.
  intros Hlim Hsub Hcr Hini Hbad run. subst run.
  decompose_call C now userAddress mode quantity s.
  cbn [outcome calls fst snd]. split_and!.
  - unfold decision. rewrite Hini.
    destruct Hbad as [Hu|[Hk Hq]].
    + rewrite (getInferenceCost_unresolved _ _ Hu).
      unfold unitCost. rewrite Hu. reflexivity.
    + destruct (unitCost mode) as [unit|] eqn:Hunit; [|congruence].
      rewrite (getInferenceCost_bad_quantity _ _ (unitCost_truthy _ _ Hunit) Hq).
      reflexivity.
  - destruct l as [|r l]; [discriminate|]. exact Hl.
  - apply in_or_app. right. left. reflexivity.
Qed.

(** An instance of C5: an unknown mode, a user with a balance of 5. *)
Lemma invalid_request_fails_after_reads_witness :
  let run := authorizeInference
               (ledger (Return (view 0 0 0)) (Throw ReadFailure) (Return 5))
               1000 alice "premium" (lit 1) fresh in
  outcome run = Throw UnknownMode /\
  hd_error (calls run) = Some (ReadSubscription alice) /\
  In (ReadCredits alice) (calls run).
Proof.
  apply (invalid_request_fails_after_reads
           (ledger (Return (view 0 0 0)) (Throw ReadFailure) (Return 5))
           1000 alice "premium" (lit 1) fresh
           (Some {| planId := JBigInt 0; startTimestamp := JBigInt 0;
                    usedThisWindow := JBigInt 0; lastRenewedAt := JBigInt 0;
                    plan := {| priceUnits := JBigInt 0; monthlyCap := JBigInt 0;
                               active := false |} |})
           5); try reflexivity.
  left. reflexivity.
Defined.

(** C5 as stated fails.  An unknown mode is refused only after both external
    reads; a rate-limited call with a quantity of zero returns the
    rate-limited decision, and a call that meets the initial-grant condition
    returns the grant for an unknown mode and a negative quantity. *)
Lemma validation_not_before_reads :
  let C := ledger (Return (view 0 0 0)) (Throw ReadFailure) (Return 5) in
  let run := authorizeInference C 1000 alice "premium" (lit 1) fresh in
  let limited := authorizeInference C 61000 alice "basic" (lit 0) (busy alice 30 1000) in
  let granted :=
    authorizeInference (ledger (Throw ReadFailure) (Throw ReadFailure) (Return 0))
      1000 alice "premium" (lit (-1)) fresh in
  unitCost "premium" = None /\
  outcome run = Throw UnknownMode /\
  calls run = [ReadSubscription alice; ReadCredits alice] /\
  outcome limited = Return {| allowed := false; method := "deny";
                              reason := "rate_limited"; cost := lit 0 |} /\
  outcome granted = Return {| allowed := true; method := "initial_grant";
                              reason := "initial_50_credits"; cost := lit 0 |}.
Proof. cbv zeta. split_and!; reflexivity. Qed.

(** Where a returned decision comes from. *)
Lemma returned_decision C now u mode quantity s d :
  outcome (authorizeInference C now u mode quantity s) = Return d ->
  d = rate_limited
  \/ d = {| allowed := true; method := "initial_grant";
            reason := "initial_50_credits"; cost := lit 0 |}
  \/ d = {| allowed := true; method := "subscription";
            reason := "within_subscription_cap"; cost := lit 0 |}
  \/ exists unit q,
       unitCost mode = Some unit /\ quantity = Fin q /\ (0 < q)%Q /\
       (d = {| allowed := true; method := "credits";
               reason := "sufficient_credits";
               cost := number_mul (lit unit) quantity |}
        \/ d = {| allowed := false; method := "deny";
                  reason := "insufficient_balance_and_cap";
                  cost := number_mul (lit unit) quantity |}).
Proof.
  decompose_call C now u mode quantity s.
  destruct b; cbn [outcome fst].
  { intros [= <-]. left. reflexivity. }
  unfold decision.
  destruct (initial_grant_applies _ _ _ _).
  { intros [= <-]. right. left. reflexivity. }
  destruct (getInferenceCost mode quantity) as [c|e] eqn:Hcost; [|discriminate].
  destruct (subscription_covers _ _ _).
  { intros [= <-]. right. right. left. reflexivity. }
  destruct (BigInt_of_number c) as [n|e] eqn:Hbig; [|discriminate].
  destruct (getInferenceCost_whole _ _ _ _ Hcost Hbig) as (unit & q & Hu & Hq & Hpos & ->).
  intros Hd. right. right. right. exists unit, q. split_and!; try assumption.
  destruct (cr >=? n); injection Hd as <-; [left|right]; reflexivity.
Qed.

(** The fallback of step 6 repeats the test of step 4 and is never taken. *)
Lemma fallback_subscription_unreachable C now u mode quantity s d :
  outcome (authorizeInference C now u mode quantity s) = Return d ->
  reason d <> "fallback_subscription".
Proof.
  intros Hd.
  destruct (returned_decision _ _ _ _ _ _ _ Hd)
    as [->|[->|[->|(unit & q & _ & _ & _ & [->| ->])]]]; cbn; discriminate.
Qed.









(** With both reads rejected, the user of the witness is denied with the
    cost of the request; a user outside the guard is given the grant. *)
Example read_failures_decisions :
  let C := ledger (Throw ReadFailure) (Throw ReadFailure) (Throw ReadFailure) in
  outcome (authorizeInference C 1000 alice "tags" (lit 3) (granted alice)) =
    Return {| allowed := false; method := "deny";
              reason := "insufficient_balance_and_cap"; cost := lit 6 |} /\
  outcome (authorizeInference C 1000 alice "tags" (lit 3) fresh) =
    Return {| allowed := true; method := "initial_grant";
              reason := "initial_50_credits"; cost := lit 0 |}.
Proof. split; reflexivity. Qed.

(** C10.  In every returned decision the flag [allowed] holds exactly when
    the method is not deny: an allowed decision has the method subscription,
    credits or initial_grant, and a decision that is not allowed has the
    method deny. *)
Theorem allowed_iff_not_deny C now userAddress mode quantity s d :
  outcome (authorizeInference C now userAddress mode quantity s) = Return d ->
  (allowed d = true <-> method d <> "deny") /\
  (allowed d = true ->
   method d = "subscription" \/ method d = "credits" \/ method d = "initial_grant") /\
  (allowed d = false -> method d = "deny").
Proof.
  intros Hd.
  destruct (returned_decision _ _ _ _ _ _ _ Hd)
    as [->|[->|[->|(unit & q & _ & _ & _ & [->| ->])]]]; cbn;
    split_and!; try split; try discriminate; try congruence; auto.
Qed.

(** An instance of C10: the denial of the credit-fallback scenario. *)
Lemma allowed_iff_not_deny_witness :
  let d := {| allowed := false; method := "deny";
              reason := "insufficient_balance_and_cap"; cost := lit 6 |} in
  (allowed d = true <-> method d <> "deny") /\
  (allowed d = true ->
   method d = "subscription" \/ method d = "credits" \/ method d = "initial_grant") /\
  (allowed d = false -> method d = "deny").
Proof.
  apply (allowed_iff_not_deny
           (ledger (Return (view 0 0 0)) (Throw ReadFailure) (Return 5))
           1000 alice "tags" (lit 3) fresh).
  reflexivity.
Defined.

(* ===================================================================== *)
(** ** Further properties of the rate limiter                             *)
(* ===================================================================== *)

Lemma isRateLimited_eq now u s :
  isRateLimited now u s =
    (Return (Z.of_nat (length (List.filter (fun t => now - t <=? 60 * 1000) (recorded s u)))
             >=? RATE_LIMIT_PER_MINUTE),
     {| _rateLimiter :=
          <[u := List.filter (fun t => now - t <=? 60 * 1000) (recorded s u) ++ [now]]>
            (_rateLimiter s);
        _grantedInitial := _grantedInitial s |},
     []).
Proof. reflexivity. Qed.

Lemma recorded_after now u s :
  recorded (final (isRateLimited now u s)) u =
    List.filter (fun t => now - t <=? 60 * 1000) (recorded s u) ++ [now].
Proof.
  rewrite isRateLimited_eq. unfold recorded at 1, final. cbn [fst snd _rateLimiter].
  rewrite lookup_insert_eq. reflexivity.
Qed.

Lemma recorded_after_other now u v s :
  v <> u -> recorded (final (isRateLimited now u s)) v = recorded s v.
Proof.
  intros Hne. rewrite isRateLimited_eq. unfold recorded, final. cbn [fst snd _rateLimiter].
  rewrite lookup_insert_ne by congruence. reflexivity.
Qed.

(** After a check the sequence of the user holds no timestamp older than
    the window, ends with the instant of the check, holds nothing that was
    not there before, and has grown by one entry at most; the verdict is
    "limited" exactly when the sequence now holds more than 30 entries. *)
Theorem isRateLimited_prunes now userAddress s :
  let after := recorded (final (isRateLimited now userAddress s)) userAddress in
  (forall t, In t after -> now - t <= 60 * 1000) /\
  (forall t, In t after -> t = now \/ In t (recorded s userAddress)) /\
  last after = Some now /\
  (length after <= S (length (recorded s userAddress)))%nat /\
  (outcome (isRateLimited now userAddress s) = Return true <-> (30 < length after)%nat).
Proof.
  cbv zeta. rewrite recorded_after. split_and!.
  - intros t Hin. apply in_app_or in Hin. destruct Hin as [Hin|[<-|[]]]; [|lia].
    apply filter_In in Hin. destruct Hin as [_ Hle]. apply Z.leb_le in Hle. exact Hle.
  - intros t Hin. apply in_app_or in Hin. destruct Hin as [Hin|[<-|[]]]; [|left; reflexivity].
    apply filter_In in Hin. right. apply Hin.
  - apply last_snoc.
  - rewrite length_app. cbn [length].
    pose proof (filter_length_le (fun t => now - t <=? 60 * 1000) (recorded s userAddress)).
    lia.
  - rewrite isRateLimited_eq. unfold outcome. cbn [fst]. rewrite length_app. cbn [length].
    unfold RATE_LIMIT_PER_MINUTE.
    destruct (Z.geb_spec (Z.of_nat (length (List.filter (fun t => now - t <=? 60 * 1000)
                                              (recorded s userAddress)))) 30);
      split; intros Hx; try reflexivity; try lia; discriminate.
Qed.

(** When every recorded timestamp has left the window, the user is let
    through, whatever the number of those timestamps, and the sequence
    restarts from the instant of the check. *)
Theorem isRateLimited_after_window now userAddress s :
  List.Forall (fun t => 60 * 1000 < now - t) (recorded s userAddress) ->
  outcome (isRateLimited now userAddress s) = Return false /\
  recorded (final (isRateLimited now userAddress s)) userAddress = [now].
Proof.
  intros Hall.
  assert (Hnil : List.filter (fun t => now - t <=? 60 * 1000) (recorded s userAddress) = []).
  { induction Hall as [|t l Ht _ IH]; [reflexivity|].
    cbn. destruct (Z.leb_spec (now - t) (60 * 1000)); [lia|exact IH]. }
  split.
  - rewrite isRateLimited_eq. unfold outcome. cbn [fst]. rewrite Hnil. reflexivity.
  - rewrite recorded_after, Hnil. reflexivity.
Qed.

Lemma isRateLimited_after_window_witness :
  outcome (isRateLimited 70000 alice (busy alice 45 1000)) = Return false /\
  recorded (final (isRateLimited 70000 alice (busy alice 45 1000))) alice = [70000].
Proof.
  apply (isRateLimited_after_window 70000 alice (busy alice 45 1000)).
  change (recorded (busy alice 45 1000) alice) with (repeat 1000 45).
  apply List.Forall_forall. intros t Hin. apply repeat_spec in Hin. subst t. reflexivity.
Defined.

(** Successive checks from a sequence [pre], at instants that all lie, with
    the entries of [pre], in one interval of 60 seconds. *)
Lemma isRateLimited_each_in_window t0 times : forall u s,
  List.Forall (fun t => t0 <= t <= t0 + 60 * 1000) (recorded s u) ->
  List.Forall (fun t => t0 <= t <= t0 + 60 * 1000) times ->
  fst (isRateLimited_each times u s) =
    List.map (fun k => 30 <=? Z.of_nat (length (recorded s u) + k))
             (List.seq 0 (length times)) /\
  recorded (snd (isRateLimited_each times u s)) u = recorded s u ++ times.
Proof.
  induction times as [|now rest IH]; intros u s Hpre Htimes.
  - cbn. rewrite app_nil_r. split; reflexivity.
  - apply List.Forall_cons_iff in Htimes. destruct Htimes as [Hnow Hrest].
    assert (Hkeep : List.filter (fun t => now - t <=? 60 * 1000) (recorded s u)
                    = recorded s u).
    { apply filter_all_pass. eapply List.Forall_impl; [|exact Hpre].
      cbn. intros t Ht. apply Z.leb_le. lia. }
    assert (Hrec : recorded (final (isRateLimited now u s)) u = recorded s u ++ [now]).
    { rewrite recorded_after, Hkeep. reflexivity. }
    cbn [isRateLimited_each]. rewrite isRateLimited_eq in Hrec |- *.
    unfold final in Hrec. cbn [fst snd] in Hrec.
    assert (Hpre' : List.Forall (fun t => t0 <= t <= t0 + 60 * 1000)
                      (recorded s u ++ [now])).
    { apply List.Forall_app. split; [exact Hpre|]. constructor; [exact Hnow|constructor]. }
    rewrite <- Hrec in Hpre'.
    destruct (IH u _ Hpre' Hrest) as [IHv IHr].
    destruct (isRateLimited_each rest u _) as [bs s''].
    cbn [fst snd] in IHv, IHr |- *. rewrite Hkeep. split.
    + cbn [length List.seq List.map]. f_equal.
      * rewrite Nat.add_0_r, Z.geb_leb. reflexivity.
      * rewrite IHv, Hrec, length_app. cbn [length].
        rewrite <- List.seq_shift, List.map_map.
        apply List.map_ext. intros k. do 2 f_equal. lia.
    + rewrite IHr, Hrec, <- app_assoc. reflexivity.
Qed.

(** A burst: for a user without recorded timestamps, successive checks at
    instants that lie in one interval of 60 seconds let the first 30
    through and limit every later one, and all the instants are recorded. *)
Theorem burst_threshold t0 times userAddress s :
  recorded s userAddress = [] ->
  List.Forall (fun t => t0 <= t <= t0 + 60 * 1000) times ->
  fst (isRateLimited_each times userAddress s) =
    List.map (fun k => 30 <=? Z.of_nat k) (List.seq 0 (length times)) /\
  recorded (snd (isRateLimited_each times userAddress s)) userAddress = times.
Proof.
  intros Hnil Htimes.
  destruct (isRateLimited_each_in_window t0 times userAddress s) as [Hv Hr].
  - rewrite Hnil. constructor.
  - exact Htimes.
  - rewrite Hnil in Hv, Hr. cbn [length Nat.add app] in Hv, Hr. split; assumption.
Qed.

Lemma burst_threshold_witness :
  fst (isRateLimited_each (List.map Z.of_nat (List.seq 1000 32)) alice fresh) =
    List.map (fun k => 30 <=? Z.of_nat k) (List.seq 0 32) /\
  recorded (snd (isRateLimited_each (List.map Z.of_nat (List.seq 1000 32)) alice fresh))
           alice = List.map Z.of_nat (List.seq 1000 32).
Proof.
  apply (burst_threshold 1000 (List.map Z.of_nat (List.seq 1000 32)) alice fresh).
  - reflexivity.
  - apply List.Forall_forall. intros t Hin. apply List.in_map_iff in Hin.
    destruct Hin as (k & <- & Hk). apply List.in_seq in Hk. lia.
Defined.

Lemma isRateLimited_prunes_witness :
  61000 - 1000 <= 60 * 1000 /\
  (1000 = 61000 \/ In 1000 (recorded (busy alice 3 1000) alice)).
Proof.
  destruct (isRateLimited_prunes 61000 alice (busy alice 3 1000)) as (H1 & H2 & _).
  split; [apply H1 | apply H2]; vm_compute; left; reflexivity.
Defined.

(* ===================================================================== *)
(** ** Further properties of the subscription read                        *)
(* ===================================================================== *)

(** What a subscription read does, whatever the contract answers. *)
Lemma getUserSubscription_spec C userAddress s :
  exists o l,
    (forall s', getUserSubscription C userAddress s' = (Return o, s', l)) /\
    getUserSubscription C userAddress s = (Return o, s, l) /\
    (l = [ReadSubscription userAddress]
     \/ exists v, c_getUserSubscription C userAddress = Return v
                  /\ number_gt (Number_of (v_planId v)) (lit 0) = true
                  /\ l = [ReadSubscription userAddress; ReadPlan (v_planId v)]) /\
    (forall sub, o = Some sub ->
       exists v, c_getUserSubscription C userAddress = Return v
                 /\ planId sub = v_planId v
                 /\ startTimestamp sub = v_startTs v
                 /\ usedThisWindow sub = v_usedThisWindow v
                 /\ lastRenewedAt sub = v_lastRenewedAt v
                 /\ monthlyCap (plan sub) = v_planMonthlyCap v
                 /\ priceUnits (plan sub) = v_planPriceUnits v
                 /\ (active (plan sub) = true ->
                     number_gt (Number_of (planId sub)) (lit 0) = true
                     /\ exists fp, c_plans C (v_planId v) = Return fp
                                   /\ pv_active fp = true)).
Proof.
  unfold getUserSubscription, try_catch, bind, call, ret.
  destruct (c_getUserSubscription C userAddress) as [v|e] eqn:Hv.
  - destruct (number_gt (Number_of (v_planId v)) (lit 0)) eqn:Hpid.
    + destruct (c_plans C (v_planId v)) as [fp|e] eqn:Hp.
      * do 2 eexists. split_and!; try (intros; reflexivity).
        { right. exists v. split_and!; try reflexivity; assumption. }
        intros sub [= <-]. exists v. cbn. split_and!; try reflexivity.
        intros Hact. split; [exact Hpid|]. exists fp. split; [exact Hp|exact Hact].
      * do 2 eexists. split_and!; try (intros; reflexivity).
        { right. exists v. split_and!; try reflexivity; assumption. }
        intros sub [=].
    + do 2 eexists. split_and!; try (intros; reflexivity).
      { left. reflexivity. }
      intros sub [= <-]. exists v. cbn. split_and!; try reflexivity. discriminate.
  - do 2 eexists. split_and!; try (intros; reflexivity).
    { left. reflexivity. }
    intros sub [=].
Qed.

(** [getUserSubscription] never throws and never touches the oracle.  It
    reads the view, and the plan only when the plan id of the view is above
    zero (at most two reads).  A subscription it returns carries the fields
    of the view, the cap and the price being those of the view and not those
    of the plan read, and is active only with a plan id above zero and a
    plan that the contract reports active. *)
Theorem getUserSubscription_shape C userAddress s :
  exists o l,
    (forall s', getUserSubscription C userAddress s' = (Return o, s', l)) /\
    getUserSubscription C userAddress s = (Return o, s, l) /\
    (l = [ReadSubscription userAddress]
     \/ exists v, c_getUserSubscription C userAddress = Return v
                  /\ number_gt (Number_of (v_planId v)) (lit 0) = true
                  /\ l = [ReadSubscription userAddress; ReadPlan (v_planId v)]) /\
    (forall sub, o = Some sub ->
       exists v, c_getUserSubscription C userAddress = Return v
                 /\ planId sub = v_planId v
                 /\ startTimestamp sub = v_startTs v
                 /\ usedThisWindow sub = v_usedThisWindow v
                 /\ lastRenewedAt sub = v_lastRenewedAt v
                 /\ monthlyCap (plan sub) = v_planMonthlyCap v
                 /\ priceUnits (plan sub) = v_planPriceUnits v
                 /\ (active (plan sub) = true ->
                     number_gt (Number_of (planId sub)) (lit 0) = true
                     /\ exists fp, c_plans C (v_planId v) = Return fp
                                   /\ pv_active fp = true)).
Proof.
  destruct (getUserSubscription_spec C userAddress s) as (o & l & Hall & Hrun & Hl & Hsub).
  exists o, l. split; [exact Hall|]. split; [exact Hrun|]. split; [exact Hl|exact Hsub].
Qed.

Lemma getUserSubscription_shape_witness :
  exists fp, c_plans (ledger (Return (view 2 10 20)) (Return (plan_view 99 true)) (Return 0))
                     (JBigInt 2) = Return fp
             /\ pv_active fp = true.
Proof.
  destruct (getUserSubscription_shape
              (ledger (Return (view 2 10 20)) (Return (plan_view 99 true)) (Return 0))
              alice fresh) as (o & l & _ & Hrun & _ & Hsub).
  injection Hrun as <- _.
  destruct (Hsub _ eq_refl) as (v & Hv & _ & _ & _ & _ & _ & _ & Hact).
  injection Hv as <-.
  destruct (Hact eq_refl) as (_ & Hfp). exact Hfp.
Defined.

(* ===================================================================== *)
(** ** Further properties of the authorization engine                     *)
(* ===================================================================== *)

(** A call as a function of the recorded timestamps of the user, the guard
    and what the contract answers. *)
Lemma authorizeInference_full C now u mode q s :
  exists o l cr,
    (forall s', getUserSubscription C u s' = (Return o, s', l)) /\
    (forall s', getUserCredits C u s' = (Return cr, s', [ReadCredits u])) /\
    (l = [ReadSubscription u] \/ exists pid, l = [ReadSubscription u; ReadPlan pid]) /\
    authorizeInference C now u mode q s =
      if Z.of_nat (length (List.filter (fun t => now - t <=? 60 * 1000) (recorded s u)))
         >=? RATE_LIMIT_PER_MINUTE
      then (Return rate_limited, final (isRateLimited now u s), [])
      else (decision (_grantedInitial s) u mode q o cr,
            final (isRateLimited now u s), l ++ [ReadCredits u]).
Proof.
  destruct (getUserSubscription_spec C u s) as (o & l & Hs & _ & Hl & _).
  destruct (getUserCredits_run C u) as (cr & Hc).
  exists o, l, cr. split_and!; try assumption.
  - destruct Hl as [->|(v & _ & _ & ->)]; [left; reflexivity|right; eexists; reflexivity].
  - apply authorizeInference_run; [|apply Hs|apply Hc].
    rewrite isRateLimited_eq. reflexivity.
Qed.

(** Whatever its outcome, a decision or an exception, a call performs at
    most three external calls, all of them reads of the user (the
    subscription view first and the balance last), submits no write, leaves
    the guard and the sequences of the other users as they were, and
    records its instant at the end of the sequence of the user. *)
Theorem authorizeInference_footprint C now userAddress mode quantity s :
  let run := authorizeInference C now userAddress mode quantity s in
  (calls run = []
   \/ calls run = [ReadSubscription userAddress; ReadCredits userAddress]
   \/ exists pid, calls run = [ReadSubscription userAddress; ReadPlan pid;
                               ReadCredits userAddress]) /\
  (forall u amount why, ~ In (AwardCredits u amount why) (calls run)) /\
  _grantedInitial (final run) = _grantedInitial s /\
  (forall other, other <> userAddress -> recorded (final run) other = recorded s other) /\
  last (recorded (final run) userAddress) = Some now.
Proof.
  cbv zeta.
  destruct (authorizeInference_full C now userAddress mode quantity s)
    as (o & l & cr & _ & _ & Hl & ->).
  assert (Hcalls :
    forall b : bool,
      let run := (if b then (Return rate_limited, final (isRateLimited now userAddress s), [])
                  else (decision (_grantedInitial s) userAddress mode quantity o cr,
                        final (isRateLimited now userAddress s),
                        l ++ [ReadCredits userAddress])) in
      (calls run = [] \/ calls run = [ReadSubscription userAddress; ReadCredits userAddress]
       \/ exists pid, calls run = [ReadSubscription userAddress; ReadPlan pid;
                                   ReadCredits userAddress])
      /\ final run = final (isRateLimited now userAddress s)).
  { intros [|]; cbn; split; try reflexivity; [left; reflexivity|].
    destruct Hl as [->|(pid & ->)]; [right; left; reflexivity|].
    right. right. exists pid. reflexivity. }
  destruct (Hcalls (Z.of_nat (length (List.filter (fun t => now - t <=? 60 * 1000)
                                        (recorded s userAddress)))
                    >=? RATE_LIMIT_PER_MINUTE)) as [Hc Hf].
  rewrite Hf. split_and!.
  - exact Hc.
  - intros u amount why Hin.
    destruct Hc as [Hc|[Hc|(pid & Hc)]]; rewrite Hc in Hin; cbn in Hin;
      repeat (destruct Hin as [Hin|Hin]; [discriminate Hin|]); exact Hin.
  - rewrite isRateLimited_eq. reflexivity.
  - intros other Hne. apply recorded_after_other. exact Hne.
  - rewrite recorded_after. apply last_snoc.
Qed.

Lemma authorizeInference_footprint_witness :
  recorded (final (authorizeInference
                     (ledger (Return (view 1 10 20)) (Return (plan_view 20 true)) (Return 0))
                     1000 alice "basic" (lit 5) (busy "bob" 3 500))) "bob"
  = recorded (busy "bob" 3 500) "bob".
Proof.
  destruct (authorizeInference_footprint
              (ledger (Return (view 1 10 20)) (Return (plan_view 20 true)) (Return 0))
              1000 alice "basic" (lit 5) (busy "bob" 3 500)) as (_ & _ & _ & H & _).
  apply H. discriminate.
Defined.

(** The outcome and the external calls of a call depend on the oracle only
    through the recorded timestamps of the user and the guard. *)
Lemma authorizeInference_frame C now u mode q s s' :
  recorded s u = recorded s' u ->
  _grantedInitial s = _grantedInitial s' ->
  outcome (authorizeInference C now u mode q s) = outcome (authorizeInference C now u mode q s')
  /\ calls (authorizeInference C now u mode q s) = calls (authorizeInference C now u mode q s').
Proof.
  intros Hr Hg.
  destruct (authorizeInference_full C now u mode q s) as (o & l & cr & Hs & Hc & _ & ->).
  destruct (authorizeInference_full C now u mode q s') as (o' & l' & cr' & Hs' & Hc' & _ & ->).
  pose proof (Hs fresh) as E1. rewrite (Hs' fresh) in E1. injection E1 as <- <-.
  pose proof (Hc fresh) as E2. rewrite (Hc' fresh) in E2. injection E2 as <-.
  rewrite Hr, Hg.
  destruct (_ >=? _); split; reflexivity.
Qed.

(** A call leaves the sequences of the other users as they were. *)
Lemma authorizeInference_recorded_other C now u mode q s other :
  other <> u ->
  recorded (final (authorizeInference C now u mode q s)) other = recorded s other.
Proof.
  intros Hne.
  destruct (authorizeInference_cases C now u mode q s)
    as (b & o & l & cr & _ & _ & _ & _ & _ & ->).
  destruct b; cbn [final fst snd]; apply recorded_after_other; exact Hne.
Qed.

(** Users do not interfere: a call for one user, whatever it is and
    however it ends, changes neither the outcome nor the external calls of
    a later call for another user. *)
Theorem authorizeInference_isolation C now userAddress mode quantity
    C' now' other mode' quantity' s :
  other <> userAddress ->
  let s1 := final (authorizeInference C now userAddress mode quantity s) in
  outcome (authorizeInference C' now' other mode' quantity' s1)
    = outcome (authorizeInference C' now' other mode' quantity' s) /\
  calls (authorizeInference C' now' other mode' quantity' s1)
    = calls (authorizeInference C' now' other mode' quantity' s).
Proof.
  intros Hne s1.
  apply authorizeInference_frame.
  - apply authorizeInference_recorded_other. exact Hne.
  - apply authorizeInference_preserves_guard.
Qed.

Lemma authorizeInference_isolation_witness :
  let C := ledger (Return (view 0 0 0)) (Throw ReadFailure) (Return 10) in
  outcome (authorizeInference C 61000 "bob" "tags" (lit 3)
             (final (authorizeInference C 61000 alice "basic" (lit 1) (busy alice 30 5000))))
    = outcome (authorizeInference C 61000 "bob" "tags" (lit 3) (busy alice 30 5000)).
Proof.
  apply (authorizeInference_isolation
           (ledger (Return (view 0 0 0)) (Throw ReadFailure) (Return 10))
           61000 alice "basic" (lit 1)
           (ledger (Return (view 0 0 0)) (Throw ReadFailure) (Return 10))
           61000 "bob" "tags" (lit 3) (busy alice 30 5000)).
  discriminate.
Defined.

Lemma strict_zero_not_positive v :
  strict_equals v (JNumber (lit 0)) = true ->
  number_gt (Number_of v) (lit 0) = false.
Proof.
  intros Hz. destruct (number_gt (Number_of v) (lit 0)) eqn:Hgt; [|reflexivity].
  rewrite (positive_not_strict_zero _ Hgt) in Hz. discriminate.
Qed.

(** A product that [BigInt(...)] accepts is the Number of that integer. *)
Lemma whole_product u q n :
  BigInt_of_number (number_mul (lit u) (Fin q)) = Return n ->
  number_mul (lit u) (Fin q) = lit n /\ (inject_Z u * q == inject_Z n)%Q.
Proof.
  unfold number_mul, lit, BigInt_of_number.
  destruct (whole (Qred (inject_Z u * q))) as [z|] eqn:Hw; [|discriminate].
  intros [= ->]. apply whole_spec in Hw. split.
  - f_equal. rewrite <- (Qred_inject_Z n).
    rewrite <- (Qred_complete _ _ (Qred_correct (inject_Z u * q))).
    apply Qred_complete, Hw.
  - rewrite <- Hw. symmetry. apply Qred_correct.
Qed.

(** What the condition of step 3 requires. *)
Lemma initial_grant_applies_spec guard u o cr :
  initial_grant_applies guard u o cr = true ->
  (u ∉ guard) /\ cr = 0 /\ isSubscribed o = false.
Proof.
  unfold initial_grant_applies. intros Hini.
  apply andb_prop in Hini. destruct Hini as [Hini Hzero].
  apply andb_prop in Hini. destruct Hini as [Hguard Hcr0].
  apply negb_true_iff, bool_decide_eq_false in Hguard.
  apply Z.eqb_eq in Hcr0. split_and!; [exact Hguard|exact Hcr0|].
  destruct o as [sub|]; [|reflexivity]. unfold isSubscribed.
  rewrite (strict_zero_not_positive _ Hzero). reflexivity.
Qed.

(** The branch of [decision] that a returned method names. *)
Lemma decision_branch C now u mode quantity s o cr d :
  outcome (getUserSubscription C u (final (isRateLimited now u s))) = Return o ->
  outcome (getUserCredits C u (final (isRateLimited now u s))) = Return cr ->
  outcome (authorizeInference C now u mode quantity s) = Return d ->
  (method d = "initial_grant" ->
     initial_grant_applies (_grantedInitial s) u o cr = true) /\
  (method d = "subscription" -> subscription_covers mode quantity o = true).
Proof.
  intros Hsub Hcr.
  decompose_call C now u mode quantity s.
  destruct b; cbn [outcome fst].
  { intros [= <-]. cbn. split; discriminate. }
  unfold decision.
  destruct (initial_grant_applies _ _ _ _) eqn:Hini.
  { intros [= <-]. cbn. split; [reflexivity|discriminate]. }
  destruct (getInferenceCost mode quantity) as [c|e] eqn:Hcost; [|discriminate].
  destruct (subscription_covers mode quantity o) eqn:Hcov.
  { intros [= <-]. cbn. split; [discriminate|reflexivity]. }
  destruct (BigInt_of_number c) as [n|e] eqn:Hbig; [|discriminate].
  destruct (cr >=? n); intros [= <-]; cbn; split; discriminate.
Qed.

(** Every allowed decision is justified by the fetched state, wherever the
    arithmetic of the call is exact ([exact_request]).  A subscription
    decision is given only for a present subscription with a plan id above
    zero, an active plan and room under the effective cap; a credits
    decision only when the cost is a positive whole number that the balance
    covers and the subscription does not cover the request; an initial
    grant only to a user outside the guard, with a zero balance and no
    active subscription.  None of them is given to a rate-limited call. *)
Theorem allowed_decision_justified C now userAddress mode quantity s o cr d :
  outcome (getUserSubscription C userAddress (final (isRateLimited now userAddress s)))
    = Return o ->
  outcome (getUserCredits C userAddress (final (isRateLimited now userAddress s)))
    = Return cr ->
  exact_request mode quantity o = true ->
  outcome (authorizeInference C now userAddress mode quantity s) = Return d ->
  (method d = "subscription" ->
     exists sub, o = Some sub
       /\ number_gt (Number_of (planId sub)) (lit 0) = true
       /\ active (plan sub) = true
       /\ number_le (number_add (Number_of (usedThisWindow sub)) quantity)
                    (effectiveCap mode sub) = true) /\
  (method d = "credits" ->
     exists n, cost d = lit n /\ 0 < n <= cr
               /\ subscription_covers mode quantity o = false) /\
  (method d = "initial_grant" ->
     (userAddress ∉ _grantedInitial s) /\ cr = 0 /\ isSubscribed o = false) /\
  (allowed d = true -> outcome (isRateLimited now userAddress s) = Return false).
Proof.
  intros Hsub Hcr _.
  decompose_call C now userAddress mode quantity s.
  destruct b; cbn [outcome fst].
  { intros [= <-]. cbn. split_and!; discriminate. }
  unfold decision.
  destruct (initial_grant_applies _ _ _ _) eqn:Hini.
  { intros [= <-]. cbn. split_and!; try discriminate; try (intros; exact Hb).
    intros _. unfold initial_grant_applies in Hini.
    apply andb_prop in Hini. destruct Hini as [Hini Hzero].
    apply andb_prop in Hini. destruct Hini as [Hguard Hcr0].
    apply negb_true_iff, bool_decide_eq_false in Hguard.
    apply Z.eqb_eq in Hcr0. split_and!; [exact Hguard|exact Hcr0|].
    destruct o as [sub|]; [|reflexivity]. unfold isSubscribed.
    rewrite (strict_zero_not_positive _ Hzero). reflexivity. }
  destruct (getInferenceCost mode quantity) as [c|e] eqn:Hcost; [|discriminate].
  destruct (subscription_covers mode quantity o) eqn:Hcov.
  { intros [= <-]. cbn. split_and!; try discriminate; try (intros; exact Hb).
    intros _. unfold subscription_covers, isSubscribed in Hcov.
    destruct o as [sub|]; [|discriminate]. exists sub.
    apply andb_prop in Hcov. destruct Hcov as [Hs Hle].
    apply andb_prop in Hs. destruct Hs as [Hpid Hact].
    split_and!; try reflexivity; assumption. }
  destruct (BigInt_of_number c) as [n|e] eqn:Hbig; [|discriminate].
  destruct (getInferenceCost_whole _ _ _ _ Hcost Hbig) as (unit & q & Hu & -> & Hq & ->).
  destruct (whole_product _ _ _ Hbig) as [Hmul Hn].
  destruct (Z.geb_spec cr n) as [Hge|Hlt]; intros [= <-]; cbn;
    split_and!; try discriminate; try (intros; exact Hb).
  intros _. exists n. split_and!; [exact Hmul| |exact Hge|reflexivity].
  pose proof (unitCost_positive _ _ Hu) as Hup.
  assert (Hpos : (0 < inject_Z unit * q)%Q).
  { apply Qmult_lt_0_compat; [|exact Hq]. unfold Qlt, inject_Z. cbn. lia. }
  rewrite Hn in Hpos. unfold Qlt, inject_Z in Hpos. cbn in Hpos. lia.
Qed.

Lemma allowed_decision_justified_witness :
  exists n, lit 6 = lit n /\ 0 < n <= 10.
Proof.
  destruct (allowed_decision_justified
              (ledger (Return (view 0 0 0)) (Throw ReadFailure) (Return 10))
              1000 alice "tags" (lit 3) fresh
              (Some (subscription_of_view (view 0 0 0) false)) 10
              {| allowed := true; method := "credits";
                 reason := "sufficient_credits"; cost := lit 6 |})
    as (_ & H & _); try reflexivity.
  destruct (H eq_refl) as (n & Hc & Hn & _).
  exists n. split; [exact Hc|exact Hn].
Defined.

(** The subscription that a readable view yields. *)
Lemma getUserSubscription_view C u s v :
  c_getUserSubscription C u = Return v ->
  outcome (getUserSubscription C u s) =
    Return (if number_gt (Number_of (v_planId v)) (lit 0)
            then match c_plans C (v_planId v) with
                 | Return fp => Some (subscription_of_view v (pv_active fp))
                 | Throw _ => None
                 end
            else Some (subscription_of_view v false)).
Proof.
  intros Hv. unfold getUserSubscription, try_catch, bind, call, ret. rewrite Hv.
  destruct (number_gt (Number_of (v_planId v)) (lit 0)); [|reflexivity].
  destruct (c_plans C (v_planId v)); reflexivity.
Qed.

(** The outcome of a call as [decision] on what the two fetches return. *)
Lemma authorizeInference_outcome C now u mode q s o cr :
  outcome (getUserSubscription C u s) = Return o ->
  outcome (getUserCredits C u s) = Return cr ->
  outcome (authorizeInference C now u mode q s) =
    if Z.of_nat (length (List.filter (fun t => now - t <=? 60 * 1000) (recorded s u)))
       >=? RATE_LIMIT_PER_MINUTE
    then Return rate_limited
    else decision (_grantedInitial s) u mode q o cr.
Proof.
  intros Ho Hc.
  destruct (authorizeInference_full C now u mode q s) as (o' & l & cr' & Hs & Hcr & _ & ->).
  rewrite Hs in Ho. rewrite Hcr in Hc. injection Ho as <-. injection Hc as <-.
  destruct (_ >=? _); reflexivity.
Qed.

(** For the modes price_accuracy and full the monthly cap of the plan has
    no influence: two ledgers that differ in the monthly cap of the view
    only give the same outcome.  (The cap and the price of the plan read are
    never looked at, in any mode.) *)
Theorem cap_exempt_ignores_monthly_cap C C' now userAddress mode quantity s v cap' :
  mode = "price_accuracy" \/ mode = "full" ->
  c_getUserSubscription C userAddress = Return v ->
  c_getUserSubscription C' userAddress = Return (with_monthly_cap v cap') ->
  (forall fp, c_plans C (v_planId v) = Return fp ->
     exists fp', c_plans C' (v_planId v) = Return fp' /\ pv_active fp' = pv_active fp) ->
  (forall e, c_plans C (v_planId v) = Throw e -> exists e', c_plans C' (v_planId v) = Throw e') ->
  outcome (getUserCredits C userAddress s) = outcome (getUserCredits C' userAddress s) ->
  outcome (authorizeInference C now userAddress mode quantity s)
    = outcome (authorizeInference C' now userAddress mode quantity s).
Proof.
  intros Hmode Hv Hv' Hplan Hfail Hcr.
  destruct (getUserCredits_run C userAddress) as (cr & Hc).
  assert (Hc1 : outcome (getUserCredits C userAddress s) = Return cr)
    by (rewrite Hc; reflexivity).
  rewrite (authorizeInference_outcome C _ _ _ _ _ _ cr
             (getUserSubscription_view C _ s _ Hv) Hc1).
  rewrite Hcr in Hc1.
  rewrite (authorizeInference_outcome C' _ _ _ _ _ _ cr
             (getUserSubscription_view C' _ s _ Hv') Hc1).
  destruct (_ >=? _); [reflexivity|].
  cbn [with_monthly_cap v_planId].
  destruct (number_gt (Number_of (v_planId v)) (lit 0)) eqn:Hpid.
  - destruct (c_plans C (v_planId v)) as [fp|e] eqn:Hp.
    + destruct (Hplan fp eq_refl) as (fp' & -> & Hact).
      unfold decision, initial_grant_applies, subscription_covers, isSubscribed, effectiveCap.
      cbn. rewrite Hact.
      destruct Hmode as [-> | ->]; reflexivity.
    + destruct (Hfail e eq_refl) as (e' & ->). reflexivity.
  - unfold decision, initial_grant_applies, subscription_covers, isSubscribed, effectiveCap.
    cbn. destruct Hmode as [-> | ->]; reflexivity.
Qed.

Lemma cap_exempt_ignores_monthly_cap_witness :
  outcome (authorizeInference
             (ledger (Return (view 1 2900 5)) (Return (plan_view 5 true)) (Return 0))
             1000 alice "full" (lit 50) fresh)
  = outcome (authorizeInference
               (ledger (Return (with_monthly_cap (view 1 2900 5) (JBigInt 100000)))
                       (Return (plan_view 7 true)) (Return 0))
               1000 alice "full" (lit 50) fresh).
Proof.
  apply (cap_exempt_ignores_monthly_cap
           (ledger (Return (view 1 2900 5)) (Return (plan_view 5 true)) (Return 0))
           (ledger (Return (with_monthly_cap (view 1 2900 5) (JBigInt 100000)))
                   (Return (plan_view 7 true)) (Return 0))
           1000 alice "full" (lit 50) fresh (view 1 2900 5) (JBigInt 100000)).
  - right. reflexivity.
  - reflexivity.
  - reflexivity.
  - intros fp [= <-]. eexists. split; reflexivity.
  - intros e [=].
  - reflexivity.
Defined.

(* ===================================================================== *)
(** ** The eligibility helpers                                            *)
(* ===================================================================== *)

(** Against the Number zero the loose comparison is the comparison of the
    converted value. *)
Lemma loose_gt_number v n : loose_gt v (JNumber n) = number_gt (Number_of v) n.
Proof. destruct v; reflexivity. Qed.

Lemma hasActiveSubscription_eq C u s o l :
  (forall s', getUserSubscription C u s' = (Return o, s', l)) ->
  hasActiveSubscription C u s = (Return (isSubscribed o), s, l).
Proof.
  intros Hs. unfold hasActiveSubscription, bind. rewrite Hs.
  destruct o as [sub|]; cbn; rewrite app_nil_r; [|reflexivity].
  rewrite loose_gt_number. reflexivity.
Qed.

Lemma hasReachedMonthlyCap_eq C u s o l :
  (forall s', getUserSubscription C u s' = (Return o, s', l)) ->
  hasReachedMonthlyCap C u s =
    (Return (match o with
             | None => true
             | Some sub => loose_ge (usedThisWindow sub) (monthlyCap (plan sub))
             end), s, l).
Proof.
  intros Hs. unfold hasReachedMonthlyCap, bind. rewrite Hs.
  destruct o as [sub|]; cbn; rewrite app_nil_r; reflexivity.
Qed.

(** [hasActiveSubscription] never throws and leaves the oracle as it is; it
    answers true exactly when the view is readable with a plan id above
    zero and the plan is readable and active.  Its answer is the
    [isSubscribed] that [authorizeInference] and the grant operation compute
    from the same fetch: the loose comparison [planId > 0] and the
    converting one [Number(planId) > 0] never disagree. *)
Theorem hasActiveSubscription_agrees C userAddress s :
  exists b o,
    outcome (hasActiveSubscription C userAddress s) = Return b /\
    final (hasActiveSubscription C userAddress s) = s /\
    outcome (getUserSubscription C userAddress s) = Return o /\
    b = isSubscribed o /\
    (b = true <->
     exists v fp, c_getUserSubscription C userAddress = Return v
                  /\ number_gt (Number_of (v_planId v)) (lit 0) = true
                  /\ c_plans C (v_planId v) = Return fp
                  /\ pv_active fp = true).
Proof.
  destruct (getUserSubscription_spec C userAddress s) as (o & l & Hs & Hrun & _ & Hsub).
  exists (isSubscribed o), o.
  rewrite (hasActiveSubscription_eq _ _ _ _ _ Hs), Hrun.
  split_and!; try reflexivity.
  split.
  - intros Hb. destruct o as [sub|]; [|discriminate].
    destruct (Hsub sub eq_refl) as (v & Hv & Hpid & _ & _ & _ & _ & _ & Hact).
    unfold isSubscribed in Hb. apply andb_prop in Hb. destruct Hb as [Hgt Ha].
    destruct (Hact Ha) as (_ & fp & Hp & Hfp).
    exists v, fp. rewrite Hpid in Hgt. split_and!; assumption.
  - intros (v & fp & Hv & Hgt & Hp & Hfp).
    pose proof (getUserSubscription_view C userAddress s v Hv) as Ho.
    rewrite Hrun, Hgt, Hp in Ho. cbn in Ho. injection Ho as ->.
    unfold isSubscribed, subscription_of_view. cbn [planId plan active].
    rewrite Hgt, Hfp. reflexivity.
Qed.

Lemma hasActiveSubscription_agrees_witness :
  exists v fp,
    c_getUserSubscription
      (ledger (Return (view 2 10 20)) (Return (plan_view 20 true)) (Return 0)) alice
      = Return v
    /\ number_gt (Number_of (v_planId v)) (lit 0) = true
    /\ c_plans (ledger (Return (view 2 10 20)) (Return (plan_view 20 true)) (Return 0))
               (v_planId v) = Return fp
    /\ pv_active fp = true.
Proof.
  destruct (hasActiveSubscription_agrees
              (ledger (Return (view 2 10 20)) (Return (plan_view 20 true)) (Return 0))
              alice fresh) as (b & o & Hb & _ & _ & _ & Hiff).
  apply Hiff. injection Hb as <-. reflexivity.
Defined.

(** [validateUserEligibility] never throws and leaves the oracle as it is;
    it fetches the subscription twice.  The user is eligible exactly when
    the reason is "Eligible", that is with an active subscription whose
    usage is below the monthly cap; without an active subscription the
    reason is "No active subscription", whatever the usage; and a
    subscription that cannot be read counts as no subscription with the cap
    reached. *)
Theorem validateUserEligibility_report C userAddress s :
  exists e o l,
    validateUserEligibility C userAddress s = (Return e, s, l ++ l) /\
    getUserSubscription C userAddress s = (Return o, s, l) /\
    Eligibility.hasSubscription e = isSubscribed o /\
    (Eligibility.eligible e = true <-> Eligibility.reason e = "Eligible") /\
    (Eligibility.eligible e = true <->
     exists sub, o = Some sub /\ isSubscribed o = true
                 /\ loose_ge (usedThisWindow sub) (monthlyCap (plan sub)) = false) /\
    (Eligibility.hasSubscription e = false ->
     Eligibility.reason e = "No active subscription") /\
    (Eligibility.hasSubscription e = true -> Eligibility.hasReachedCap e = true ->
     Eligibility.reason e = "Monthly cap reached") /\
    (o = None ->
     e = {| Eligibility.eligible := false; Eligibility.hasSubscription := false;
            Eligibility.hasReachedCap := true;
            Eligibility.reason := "No active subscription" |}).
Proof.
  destruct (getUserSubscription_spec C userAddress s) as (o & l & Hs & Hrun & _ & _).
  eexists _, o, l.
  unfold validateUserEligibility. unfold bind at 1.
  rewrite (hasActiveSubscription_eq _ _ _ _ _ Hs).
  unfold bind at 1. rewrite (hasReachedMonthlyCap_eq _ _ _ _ _ Hs).
  unfold ret. cbn [app]. rewrite app_nil_r.
  split; [reflexivity|]. split; [exact Hrun|].
  cbn [Eligibility.eligible Eligibility.hasSubscription Eligibility.hasReachedCap
       Eligibility.reason].
  destruct o as [sub|].
  - destruct (isSubscribed (Some sub)) eqn:Hsub,
             (loose_ge (usedThisWindow sub) (monthlyCap (plan sub))) eqn:Hcap;
      cbn [andb negb]; split_and!; try reflexivity; try discriminate;
      try (split; discriminate); try (intros; discriminate);
      try (split; [discriminate|intros (sub' & [= <-] & H1 & H2); congruence]).
    + split; reflexivity.
    + split; [|reflexivity]. intros _. exists sub. split_and!; reflexivity || assumption.
  - cbn. split_and!; try reflexivity; try discriminate;
      try (split; discriminate); try (intros; discriminate).
    split; [discriminate|]. intros (sub' & H & _). discriminate H.
Qed.

Lemma validateUserEligibility_report_witness :
  let C := ledger (Return (view 2 20 20)) (Return (plan_view 20 true)) (Return 0) in
  exists e, outcome (validateUserEligibility C alice fresh) = Return e
            /\ Eligibility.reason e = "Monthly cap reached".
Proof.
  cbv zeta.
  destruct (validateUserEligibility_report
              (ledger (Return (view 2 20 20)) (Return (plan_view 20 true)) (Return 0))
              alice fresh) as (e & o & l & Hrun & _ & Hs & _ & _ & _ & Hcap & _).
  exists e. split; [rewrite Hrun; reflexivity|].
  injection Hrun as <- _. apply Hcap; reflexivity.
Defined.

(** What the eligibility report says about a view whose usage and cap are
    BigInts. *)
Lemma validateUserEligibility_bigint C u s e v a c :
  outcome (validateUserEligibility C u s) = Return e ->
  c_getUserSubscription C u = Return v ->
  v_usedThisWindow v = JBigInt a ->
  v_planMonthlyCap v = JBigInt c ->
  exists o,
    outcome (getUserSubscription C u s) = Return o /\
    Eligibility.hasSubscription e = isSubscribed o /\
    (Eligibility.eligible e = true -> isSubscribed o = true /\ a < c) /\
    (forall sub, o = Some sub ->
       usedThisWindow sub = JBigInt a /\ monthlyCap (plan sub) = JBigInt c
       /\ (Eligibility.hasReachedCap e = true -> c <= a)).
Proof.
  intros He Hv Ha Hc.
  destruct (getUserSubscription_spec C u s) as (o & l & Hs & Hrun & _ & Hsub).
  exists o. split; [rewrite Hrun; reflexivity|].
  unfold validateUserEligibility in He. unfold bind at 1 in He.
  rewrite (hasActiveSubscription_eq _ _ _ _ _ Hs) in He.
  unfold bind at 1 in He. rewrite (hasReachedMonthlyCap_eq _ _ _ _ _ Hs) in He.
  cbn in He. injection He as <-.
  cbn [Eligibility.eligible Eligibility.hasSubscription Eligibility.hasReachedCap].
  assert (Hfields : forall sub, o = Some sub ->
            usedThisWindow sub = JBigInt a /\ monthlyCap (plan sub) = JBigInt c).
  { intros sub Ho. destruct (Hsub sub Ho) as (v' & Hv' & _ & _ & Hu & _ & Hm & _).
    rewrite Hv in Hv'. injection Hv' as <-. split; congruence. }
  split_and!; [reflexivity| |].
  - intros Hel. apply andb_prop in Hel. destruct Hel as [Hsubd Hcap].
    split; [exact Hsubd|]. apply negb_true_iff in Hcap.
    destruct o as [sub|]; [|discriminate].
    destruct (Hfields sub eq_refl) as [Hu Hm]. rewrite Hu, Hm in Hcap.
    cbn in Hcap. destruct (Z.geb_spec a c); [discriminate|assumption].
  - intros sub ->. destruct (Hfields sub eq_refl) as [Hu Hm].
    split_and!; [exact Hu|exact Hm|]. rewrite Hu, Hm. cbn.
    destruct (Z.geb_spec a c); [trivial|discriminate].
Qed.

Lemma not_cap_exempt mode sub :
  mode <> "price_accuracy" -> mode <> "full" ->
  effectiveCap mode sub = Number_of (monthlyCap (plan sub)).
Proof.
  intros H1 H2. unfold effectiveCap.
  destruct (String.eqb_spec mode "price_accuracy"); [contradiction|].
  destruct (String.eqb_spec mode "full"); [contradiction|]. reflexivity.
Qed.

(** The eligibility report predicts the authorization: for a user that
    [validateUserEligibility] reports eligible, on a ledger whose usage and
    cap are BigInts in the range where the conversion to a Number is exact,
    a call that the rate limiter lets through for one unit of a mode under
    the monthly cap (basic or tags) is allowed through the subscription. *)
Theorem eligible_is_authorized C now userAddress mode unit s e v a c :
  outcome (validateUserEligibility C userAddress s) = Return e ->
  Eligibility.eligible e = true ->
  c_getUserSubscription C userAddress = Return v ->
  v_usedThisWindow v = JBigInt a ->
  v_planMonthlyCap v = JBigInt c ->
  0 <= a < 2 ^ 53 ->
  0 <= c < 2 ^ 53 ->
  outcome (isRateLimited now userAddress s) = Return false ->
  unitCost mode = Some unit ->
  mode <> "price_accuracy" ->
  mode <> "full" ->
  outcome (authorizeInference C now userAddress mode (lit 1) s) =
    Return {| allowed := true; method := "subscription";
              reason := "within_subscription_cap"; cost := lit 0 |}.
Proof.
  intros He Hel Hv Ha Hc _ _ Hlim Hunit Hm1 Hm2.
  destruct (validateUserEligibility_bigint _ _ _ _ _ _ _ He Hv Ha Hc)
    as (o & Ho & _ & Helig & Hfields).
  destruct (Helig Hel) as [Hsub Hac].
  destruct (getUserCredits_run C userAddress) as (cr & Hcr).
  rewrite (authorizeInference_outcome C now userAddress mode (lit 1) s o cr Ho)
    by (rewrite Hcr; reflexivity).
  rewrite isRateLimited_eq in Hlim. unfold outcome in Hlim. cbn [fst] in Hlim.
  injection Hlim as ->.
  destruct o as [sub|]; [|discriminate].
  destruct (Hfields sub eq_refl) as (Hu & Hmc & _).
  unfold isSubscribed in Hsub. apply andb_prop in Hsub. destruct Hsub as [Hpid Hact].
  unfold decision, initial_grant_applies.
  rewrite (positive_not_strict_zero _ Hpid), andb_false_r.
  unfold lit at 1. rewrite (getInferenceCost_known _ _ _ Hunit) by reflexivity.
  unfold subscription_covers, isSubscribed.
  rewrite Hpid, Hact, (not_cap_exempt _ _ Hm1 Hm2), Hu, Hmc.
  cbn [Number_of andb]. fold (lit 1). rewrite number_add_lit, number_le_lit.
  destruct (Z.leb_spec (a + 1) c); [reflexivity|lia].
Qed.

Lemma eligible_is_authorized_witness :
  outcome (authorizeInference
             (ledger (Return (view 2 19 20)) (Return (plan_view 20 true)) (Return 0))
             1000 alice "tags" (lit 1) fresh) =
    Return {| allowed := true; method := "subscription";
              reason := "within_subscription_cap"; cost := lit 0 |}.
Proof.
  apply (eligible_is_authorized
           (ledger (Return (view 2 19 20)) (Return (plan_view 20 true)) (Return 0))
           1000 alice "tags" 2 fresh
           {| Eligibility.eligible := true; Eligibility.hasSubscription := true;
              Eligibility.hasReachedCap := false; Eligibility.reason := "Eligible" |}
           (view 2 19 20) 19 20); try reflexivity; try discriminate; lia.
Defined.

(** Conversely, once the report says that the monthly cap is reached, no
    call for a mode under the monthly cap, whatever its positive quantity,
    is settled through the subscription, wherever the arithmetic of the call
    is exact ([exact_request]: a quantity so small that the sum with the
    usage rounds back to the usage is outside). *)
Theorem cap_reached_blocks_subscription C now userAddress mode quantity q s e v a c o d :
  outcome (validateUserEligibility C userAddress s) = Return e ->
  Eligibility.hasReachedCap e = true ->
  c_getUserSubscription C userAddress = Return v ->
  v_usedThisWindow v = JBigInt a ->
  v_planMonthlyCap v = JBigInt c ->
  mode <> "price_accuracy" ->
  mode <> "full" ->
  quantity = Fin q ->
  (0 < q)%Q ->
  outcome (getUserSubscription C userAddress s) = Return o ->
  exact_request mode quantity o = true ->
  outcome (authorizeInference C now userAddress mode quantity s) = Return d ->
  method d <> "subscription".
Proof.
  intros He Hcap Hv Ha Hc Hm1 Hm2 -> Hq Hfetch _ Hd Hmeth.
  destruct (validateUserEligibility_bigint _ _ _ _ _ _ _ He Hv Ha Hc)
    as (o' & Ho & _ & _ & Hfields).
  rewrite Hfetch in Ho. injection Ho as <-.
  destruct (getUserSubscription_spec C userAddress s) as (o' & l & Hs & Hrun & _ & _).
  rewrite Hrun in Hfetch. injection Hfetch as ->.
  destruct (getUserCredits_run C userAddress) as (cr & Hcr).
  destruct (decision_branch C now userAddress mode (Fin q) s o cr d)
    as (_ & Hsubd); [rewrite Hs; reflexivity | rewrite Hcr; reflexivity | exact Hd |].
  specialize (Hsubd Hmeth). unfold subscription_covers in Hsubd.
  destruct o as [sub|]; [|discriminate].
  apply andb_prop in Hsubd. destruct Hsubd as [_ Hle].
  destruct (Hfields sub eq_refl) as (Hu & Hmc & Hca).
  specialize (Hca Hcap).
  rewrite (not_cap_exempt _ _ Hm1 Hm2), Hu, Hmc in Hle.
  cbn in Hle. apply Qle_bool_iff in Hle. rewrite Qred_correct in Hle.
  assert (Hca' : (inject_Z c <= inject_Z a)%Q) by (rewrite <- Zle_Qle; exact Hca).
  lra.
Qed.

Lemma cap_reached_blocks_subscription_witness :
  "credits" <> "subscription".
Proof.
  apply (cap_reached_blocks_subscription
           (ledger (Return (view 2 20 20)) (Return (plan_view 20 true)) (Return 10))
           1000 alice "tags" (lit 3) (inject_Z 3) fresh
           {| Eligibility.eligible := false; Eligibility.hasSubscription := true;
              Eligibility.hasReachedCap := true;
              Eligibility.reason := "Monthly cap reached" |}
           (view 2 20 20) 20 20
           (Some (subscription_of_view (view 2 20 20) true))
           {| allowed := true; method := "credits";
              reason := "sufficient_credits"; cost := lit 6 |});
    try reflexivity; discriminate.
Defined.

(* ===================================================================== *)
(** ** The privileged grant operation                                     *)
(* ===================================================================== *)

(** The operation with a signer and a user address, as a function of the
    guard and of what the contract answers. *)
Lemma grantInitialCreditsIfEligible_full C sg u s :
  u <> "" ->
  exists o l cr,
    (forall s', getUserSubscription C u s' = (Return o, s', l)) /\
    (forall s', getUserCredits C u s' = (Return cr, s', [ReadCredits u])) /\
    (forall u' n r, ~ In (AwardCredits u' n r) l) /\
    grantInitialCreditsIfEligible C (Some sg) u s =
      if bool_decide (u ∈ _grantedInitial s) then (Return None, s, [])
      else if (cr >? 0) || isSubscribed o then (Return None, s, ReadCredits u :: l)
      else match c_awardCredits C u 50 "initial_grant" with
           | Return r =>
               (Return (Some r),
                {| _rateLimiter := _rateLimiter s;
                   _grantedInitial := {[ u ]} ∪ _grantedInitial s |},
                ReadCredits u :: l ++ [AwardCredits u 50 "initial_grant"])
           | Throw e =>
               (Throw e, s, ReadCredits u :: l ++ [AwardCredits u 50 "initial_grant"])
           end.
Proof.
  intros Hu.
  destruct (getUserSubscription_spec C u s) as (o & l & Hs & _ & Hl & _).
  destruct (getUserCredits_run C u) as (cr & Hc).
  exists o, l, cr. split_and!; try assumption.
  - intros u' n r Hin.
    destruct Hl as [->|(v & _ & _ & ->)]; cbn in Hin;
      repeat (destruct Hin as [Hin|Hin]; [discriminate Hin|]); exact Hin.
  - unfold grantInitialCreditsIfEligible.
    rewrite bool_decide_eq_true_2 by (eexists; reflexivity). cbn [negb].
    destruct (String.eqb_spec u "") as [->|_]; [contradiction|].
    unfold bind at 1. cbn [get].
    destruct (bool_decide (u ∈ _grantedInitial s)); [reflexivity|].
    unfold bind at 1. rewrite Hc. unfold bind at 1. rewrite Hs.
    fold (isSubscribed o).
    destruct ((cr >? 0) || isSubscribed o).
    { cbn. rewrite app_nil_r. reflexivity. }
    unfold bind, call, get, put, ret. cbn [app].
    destruct (c_awardCredits C u 50 "initial_grant") as [r|e]; cbn [app];
      rewrite ?app_nil_r; reflexivity.
Qed.

(** The operation awards only to the eligible.  An award is submitted only
    with a signer, for the user of the call, for 50 credits and the reason
    initial_grant, to a user outside the guard whose balance is not
    positive and who has no active subscription; it is the last external
    call of the operation, and there is one at most. *)
Theorem grant_awards_only_eligible C signer userAddress s o cr u' n why :
  outcome (getUserSubscription C userAddress s) = Return o ->
  outcome (getUserCredits C userAddress s) = Return cr ->
  In (AwardCredits u' n why) (calls (grantInitialCreditsIfEligible C signer userAddress s)) ->
  signer <> None /\ userAddress <> "" /\
  u' = userAddress /\ n = 50 /\ why = "initial_grant" /\
  (userAddress ∉ _grantedInitial s) /\ cr <= 0 /\ isSubscribed o = false /\
  exists reads,
    calls (grantInitialCreditsIfEligible C signer userAddress s)
      = reads ++ [AwardCredits userAddress 50 "initial_grant"]
    /\ forall u'' n' r', ~ In (AwardCredits u'' n' r') reads.
Proof.
  intros Ho Hc Hin.
  destruct signer as [sg|]; [|cbn in Hin; contradiction].
  destruct (String.eqb_spec userAddress "") as [->|Hu]; [cbn in Hin; contradiction|].
  destruct (grantInitialCreditsIfEligible_full C sg userAddress s Hu)
    as (o' & l & cr' & Hs & Hcr & Hl & Hrun).
  rewrite Hs in Ho. rewrite Hcr in Hc. injection Ho as <-. injection Hc as <-.
  rewrite Hrun in Hin |- *. clear Hrun.
  destruct (bool_decide (userAddress ∈ _grantedInitial s)) eqn:Hg;
    [cbn in Hin; contradiction|].
  apply bool_decide_eq_false in Hg.
  destruct ((cr' >? 0) || isSubscribed o') eqn:Hel.
  { cbn in Hin. destruct Hin as [Hin|Hin]; [discriminate Hin|]. destruct (Hl _ _ _ Hin). }
  apply orb_false_iff in Hel. destruct Hel as [Hcr0 Hsub].
  assert (Hcalls : calls (match c_awardCredits C userAddress 50 "initial_grant" with
                          | Return r =>
                              (Return (Some r),
                               {| _rateLimiter := _rateLimiter s;
                                  _grantedInitial := {[ userAddress ]} ∪ _grantedInitial s |},
                               ReadCredits userAddress
                                 :: l ++ [AwardCredits userAddress 50 "initial_grant"])
                          | Throw e =>
                              (Throw e, s,
                               ReadCredits userAddress
                                 :: l ++ [AwardCredits userAddress 50 "initial_grant"])
                          end)
                   = (ReadCredits userAddress :: l)
                       ++ [AwardCredits userAddress 50 "initial_grant"]).
  { destruct (c_awardCredits C userAddress 50 "initial_grant"); reflexivity. }
  rewrite Hcalls in Hin |- *.
  apply in_app_or in Hin. destruct Hin as [Hin|Hin].
  { cbn in Hin. destruct Hin as [Hin|Hin]; [discriminate Hin|]. destruct (Hl _ _ _ Hin). }
  destruct Hin as [[= <- <- <-]|[]].
  split_and!; try reflexivity; try assumption; try discriminate.
  - destruct (Z.gtb_spec cr' 0); [discriminate|lia].
  - exists (ReadCredits userAddress :: l). split; [reflexivity|].
    intros u'' n' r' [Hin|Hin]; [discriminate Hin|]. exact (Hl _ _ _ Hin).
Qed.

Lemma grant_awards_only_eligible_witness :
  let C := ledger (Return (view 0 0 0)) (Throw ReadFailure) (Return 0) in
  (alice ∉ _grantedInitial fresh) /\
  isSubscribed (Some (subscription_of_view (view 0 0 0) false)) = false.
Proof.
  destruct (grant_awards_only_eligible
              (ledger (Return (view 0 0 0)) (Throw ReadFailure) (Return 0))
              (Some "oracle") alice fresh
              (Some (subscription_of_view (view 0 0 0) false)) 0
              alice 50 "initial_grant")
    as (_ & _ & _ & _ & _ & Hg & _ & Hs & _); try reflexivity.
  - vm_compute. right. right. left. reflexivity.
  - split; assumption.
Defined.

(** The guard is marked exactly by a mined award: when the operation
    returns a receipt the user has been added to the guard; in every other
    case, null or an exception (a missing signer or address, a rejected
    award), the guard is as it was.  The rate limiter is never touched. *)
Theorem grant_marks_guard_on_receipt C signer userAddress s :
  let run := grantInitialCreditsIfEligible C signer userAddress s in
  _rateLimiter (final run) = _rateLimiter s /\
  (forall r, outcome run = Return (Some r) ->
     _grantedInitial (final run) = {[ userAddress ]} ∪ _grantedInitial s
     /\ c_awardCredits C userAddress 50 "initial_grant" = Return r
     /\ In (AwardCredits userAddress 50 "initial_grant") (calls run)) /\
  ((forall r, outcome run <> Return (Some r)) -> final run = s) /\
  (signer = None -> outcome run = Throw SignerRequired /\ calls run = []) /\
  (signer <> None -> userAddress = "" ->
     outcome run = Throw UserAddressRequired /\ calls run = []).
Proof.
  cbv zeta.
  destruct signer as [sg|].
  2:{ cbn. split_and!; try reflexivity; try discriminate; try congruence.
      intros _. split; reflexivity. }
  destruct (String.eqb_spec userAddress "") as [->|Hu].
  { cbn. split_and!; try reflexivity; try discriminate; try congruence.
    intros _ _. split; reflexivity. }
  destruct (grantInitialCreditsIfEligible_full C sg userAddress s Hu)
    as (o & l & cr & _ & _ & _ & ->).
  destruct (bool_decide (userAddress ∈ _grantedInitial s));
    [cbn; split_and!; try reflexivity; try discriminate; try congruence|].
  destruct ((cr >? 0) || isSubscribed o);
    [cbn; split_and!; try reflexivity; try discriminate; try congruence|].
  destruct (c_awardCredits C userAddress 50 "initial_grant") as [r|e];
    cbn; split_and!; try reflexivity; try discriminate; try congruence.
  - intros r' [= <-]. split_and!; try reflexivity.
    right. apply in_or_app. right. left. reflexivity.
  - intros Hno. destruct (Hno r eq_refl).
Qed.

Lemma grant_marks_guard_on_receipt_witness :
  let run := grantInitialCreditsIfEligible
               (ledger (Return (view 0 0 0)) (Throw ReadFailure) (Return 0))
               (Some "oracle") alice fresh in
  _grantedInitial (final run) = {[ alice ]} ∪ _grantedInitial fresh.
Proof.
  cbv zeta.
  destruct (grant_marks_guard_on_receipt
              (ledger (Return (view 0 0 0)) (Throw ReadFailure) (Return 0))
              (Some "oracle") alice fresh) as (_ & H & _).
  apply (H 1). reflexivity.
Defined.

(** A returned receipt comes with the user added to the guard. *)
Lemma grant_receipt_marks_guard C signer u s r :
  outcome (grantInitialCreditsIfEligible C signer u s) = Return (Some r) ->
  _grantedInitial (final (grantInitialCreditsIfEligible C signer u s))
    = {[ u ]} ∪ _grantedInitial s.
Proof.
  destruct signer as [sg|]; [|discriminate].
  destruct (String.eqb_spec u "") as [->|Hu]; [discriminate|].
  destruct (grantInitialCreditsIfEligible_full C sg u s Hu)
    as (o & l & cr & _ & _ & _ & ->).
  destruct (bool_decide (u ∈ _grantedInitial s)); [discriminate|].
  destruct ((cr >? 0) || isSubscribed o); [discriminate|].
  destruct (c_awardCredits C u 50 "initial_grant") as [r'|e]; [|discriminate].
  intros _. reflexivity.
Qed.

(** The grant is one-time per process: once the operation has returned a
    receipt for a user, every later call of it for that user, with whatever
    contract and signer, performs no external call and returns no
    receipt; and no authorization of that user is an initial grant any
    more. *)
Theorem grant_is_one_time C signer userAddress s r :
  outcome (grantInitialCreditsIfEligible C signer userAddress s) = Return (Some r) ->
  let s1 := final (grantInitialCreditsIfEligible C signer userAddress s) in
  (forall C' signer',
     calls (grantInitialCreditsIfEligible C' signer' userAddress s1) = []
     /\ (forall r', outcome (grantInitialCreditsIfEligible C' signer' userAddress s1)
                    <> Return (Some r'))
     /\ final (grantInitialCreditsIfEligible C' signer' userAddress s1) = s1) /\
  (forall C' now mode quantity d,
     outcome (authorizeInference C' now userAddress mode quantity s1) = Return d ->
     method d <> "initial_grant").
Proof.
  intros Hr s1.
  pose proof (grant_receipt_marks_guard C signer userAddress s r Hr) as Hguard.
  fold s1 in Hguard.
  assert (Hin : userAddress ∈ _grantedInitial s1).
  { rewrite Hguard. apply elem_of_union. left. apply elem_of_singleton. reflexivity. }
  split.
  - intros C' signer'.
    destruct signer' as [sg'|]; [|cbn; split_and!; try reflexivity; discriminate].
    destruct (String.eqb_spec userAddress "") as [Hu|Hu].
    { unfold grantInitialCreditsIfEligible. cbn [negb].
      rewrite bool_decide_eq_true_2 by (eexists; reflexivity). cbn [negb].
      rewrite Hu. cbn. split_and!; try reflexivity; discriminate. }
    destruct (grantInitialCreditsIfEligible_full C' sg' userAddress s1 Hu)
      as (o & l & cr & _ & _ & _ & ->).
    rewrite bool_decide_eq_true_2 by exact Hin.
    cbn. split_and!; try reflexivity; discriminate.
  - intros C' now mode quantity d Hd Hmeth.
    destruct (getUserSubscription_spec C' userAddress
                (final (isRateLimited now userAddress s1))) as (o & l & _ & Ho & _ & _).
    destruct (getUserCredits_run C' userAddress) as (cr & Hc).
    destruct (decision_branch C' now userAddress mode quantity s1 o cr d)
      as (Hini & _); [rewrite Ho; reflexivity | rewrite Hc; reflexivity | exact Hd |].
    destruct (initial_grant_applies_spec _ _ _ _ (Hini Hmeth)) as (Hnot & _).
    exact (Hnot Hin).
Qed.

Lemma grant_is_one_time_witness :
  let C := ledger (Return (view 0 0 0)) (Throw ReadFailure) (Return 0) in
  let s1 := final (grantInitialCreditsIfEligible C (Some "oracle") alice fresh) in
  calls (grantInitialCreditsIfEligible C (Some "oracle") alice s1) = [].
Proof.
  cbv zeta.
  destruct (grant_is_one_time
              (ledger (Return (view 0 0 0)) (Throw ReadFailure) (Return 0))
              (Some "oracle") alice fresh 1 eq_refl) as (H & _).
  apply H.
Defined.

(** An authorized initial grant can be carried out: when a call returns the
    initial-grant decision for a user with a non-empty address, the grant
    operation run next with a signer, on a contract that answers the two
    reads as before and mines the award, submits the award of 50 credits,
    returns its receipt and marks the guard. *)
Theorem authorized_grant_goes_through C now userAddress mode quantity s d sg r :
  outcome (authorizeInference C now userAddress mode quantity s) = Return d ->
  method d = "initial_grant" ->
  userAddress <> "" ->
  c_awardCredits C userAddress 50 "initial_grant" = Return r ->
  let s1 := final (authorizeInference C now userAddress mode quantity s) in
  let run := grantInitialCreditsIfEligible C (Some sg) userAddress s1 in
  outcome run = Return (Some r) /\
  In (AwardCredits userAddress 50 "initial_grant") (calls run) /\
  (userAddress ∈ _grantedInitial (final run)).
Proof.
  intros Hd Hmeth Hu Haward s1 run.
  destruct (getUserSubscription_spec C userAddress
              (final (isRateLimited now userAddress s))) as (o & l & Hs & Ho & _ & _).
  destruct (getUserCredits_run C userAddress) as (cr & Hc).
  destruct (decision_branch C now userAddress mode quantity s o cr d)
    as (Hini & _); [rewrite Ho; reflexivity | rewrite Hc; reflexivity | exact Hd |].
  destruct (initial_grant_applies_spec _ _ _ _ (Hini Hmeth)) as (Hnot & Hcr & Hsub).
  assert (Hg : _grantedInitial s1 = _grantedInitial s)
    by apply authorizeInference_preserves_guard.
  subst run.
  destruct (grantInitialCreditsIfEligible_full C sg userAddress s1 Hu)
    as (o' & l' & cr' & Hs' & Hc' & _ & ->).
  pose proof (Hs fresh) as E1. rewrite (Hs' fresh) in E1. injection E1 as -> ->.
  pose proof (Hc fresh) as E2. rewrite (Hc' fresh) in E2. injection E2 as ->.
  rewrite Hg, bool_decide_eq_false_2 by exact Hnot.
  rewrite Hcr, Hsub, Haward. cbn.
  split_and!; [reflexivity| |].
  - right. apply in_or_app. right. left. reflexivity.
  - apply elem_of_union. left. apply elem_of_singleton. reflexivity.
Qed.

Lemma authorized_grant_goes_through_witness :
  let C := ledger (Throw ReadFailure) (Throw ReadFailure) (Return 0) in
  let s1 := final (authorizeInference C 1000 alice "full" (lit 3) fresh) in
  outcome (grantInitialCreditsIfEligible C (Some "oracle") alice s1) = Return (Some 1).
Proof.
  cbv zeta.
  apply (authorized_grant_goes_through
           (ledger (Throw ReadFailure) (Throw ReadFailure) (Return 0))
           1000 alice "full" (lit 3) fresh
           {| allowed := true; method := "initial_grant";
              reason := "initial_50_credits"; cost := lit 0 |}
           "oracle" 1); try reflexivity.
  discriminate.
Defined.

(* ===================================================================== *)
(** ** The serializer                                                     *)
(* ===================================================================== *)

(** Induction on a value, with the items of an array and the property
    values of an object as sub-values. *)
Lemma value_induction (P : value -> Prop) :
  P VNull -> P VUndefined -> (forall b, P (VBool b)) -> (forall n, P (VNumber n)) ->
  (forall s, P (VString s)) -> (forall z, P (VBigInt z)) ->
  (forall items, List.Forall P items -> P (VArray items)) ->
  (forall fields, List.Forall (fun kv => P (snd kv)) fields -> P (VObject fields)) ->
  forall v, P v.
Proof.
  intros Hnull Hundef Hbool Hnum Hstr Hbig Harr Hobj.
  fix IH 1. intros [ | | b | n | s | z | items | fields].
  - exact Hnull.
  - exact Hundef.
  - apply Hbool.
  - apply Hnum.
  - apply Hstr.
  - apply Hbig.
  - apply Harr. induction items as [|x xs IHxs]; constructor; [apply IH | exact IHxs].
  - apply Hobj. induction fields as [|[k x] fs IHfs]; constructor; [apply IH | exact IHfs].
Qed.

(** The properties of a serialized object: those of the object whose key is
    not [__proto__], each with its value serialized. *)
Lemma serialize_object fields :
  serialize (VObject fields) =
    VObject (List.map (fun kv => (fst kv, serialize (snd kv)))
               (List.filter (fun kv => negb (String.eqb (fst kv) "__proto__")) fields)).
Proof.
  cbn [serialize]. f_equal.
  induction fields as [|[k x] fs IH]; [reflexivity|].
  cbn [List.filter List.map fst snd].
  destruct (String.eqb k "__proto__"); cbn [negb List.map fst snd]; rewrite IH; reflexivity.
Qed.

(** No BigInt survives the serializer, at any depth: what it returns can be
    handed to [JSON.stringify]. *)
Theorem serialize_no_bigint v : has_bigint (serialize v) = false.
Proof.
  induction v as [ | | b | n | s | z | items IH | fields IH] using value_induction;
    try reflexivity.
  - cbn [serialize has_bigint].
    induction IH as [|x xs Hx _ IHxs]; [reflexivity|].
    cbn [List.map existsb]. rewrite Hx, IHxs. reflexivity.
  - rewrite serialize_object. cbn [has_bigint].
    induction IH as [|[k x] fs Hx _ IHfs]; [reflexivity|]. cbn [snd] in Hx.
    cbn [List.filter fst snd].
    destruct (String.eqb k "__proto__"); cbn [negb]; [exact IHfs|].
    cbn [List.map existsb fst snd]. rewrite Hx, IHfs. reflexivity.
Qed.

Lemma serialize_no_proto_key v : has_proto_key (serialize v) = false.
Proof.
  induction v as [ | | b | n | s | z | items IH | fields IH] using value_induction;
    try reflexivity.
  - cbn [serialize has_proto_key].
    induction IH as [|x xs Hx _ IHxs]; [reflexivity|].
    cbn [List.map existsb]. rewrite Hx, IHxs. reflexivity.
  - rewrite serialize_object. cbn [has_proto_key].
    induction IH as [|[k x] fs Hx _ IHfs]; [reflexivity|]. cbn [snd] in Hx.
    cbn [List.filter fst snd].
    destruct (String.eqb k "__proto__") eqn:Hk; cbn [negb]; [exact IHfs|].
    cbn [List.map existsb fst snd]. rewrite Hk, Hx, IHfs. reflexivity.
Qed.

(** A value without a BigInt, and without an own key [__proto__], is
    returned as it is. *)
Theorem serialize_fixed v :
  has_bigint v = false -> has_proto_key v = false -> serialize v = v.
Proof.
  induction v as [ | | b | n | s | z | items IH | fields IH] using value_induction;
    try reflexivity.
  - discriminate.
  - cbn [serialize has_bigint has_proto_key]. intros Hb Hp. f_equal.
    induction IH as [|x xs Hx _ IHxs]; [reflexivity|].
    cbn [existsb] in Hb, Hp. apply orb_false_iff in Hb. apply orb_false_iff in Hp.
    destruct Hb as [Hb1 Hb2]. destruct Hp as [Hp1 Hp2].
    cbn [List.map]. rewrite (Hx Hb1 Hp1), (IHxs Hb2 Hp2). reflexivity.
  - rewrite serialize_object. cbn [has_bigint has_proto_key]. intros Hb Hp. f_equal.
    induction IH as [|[k x] fs Hx _ IHfs]; [reflexivity|]. cbn [snd] in Hx.
    cbn [existsb fst snd] in Hb, Hp. apply orb_false_iff in Hb. apply orb_false_iff in Hp.
    destruct Hb as [Hb1 Hb2]. destruct Hp as [Hp1 Hp2].
    apply orb_false_iff in Hp1. destruct Hp1 as [Hk Hp1].
    cbn [List.filter fst snd]. rewrite Hk. cbn [negb List.map fst snd].
    rewrite (Hx Hb1 Hp1), (IHfs Hb2 Hp2). reflexivity.
Qed.

(** A decision object passes through the serializer untouched. *)
Lemma serialize_fixed_witness :
  serialize (Decision_value {| allowed := true; method := "credits";
                               reason := "sufficient_credits"; cost := lit 6 |})
  = Decision_value {| allowed := true; method := "credits";
                      reason := "sufficient_credits"; cost := lit 6 |}.
Proof.
  apply (serialize_fixed
           (Decision_value {| allowed := true; method := "credits";
                              reason := "sufficient_credits"; cost := lit 6 |}));
    reflexivity.
Defined.

(** Serializing twice is serializing once. *)
Theorem serialize_idempotent v : serialize (serialize v) = serialize v.
Proof.
  induction v as [ | | b | n | s | z | items IH | fields IH] using value_induction;
    try reflexivity.
  - cbn [serialize]. f_equal.
    induction IH as [|x xs Hx _ IHxs]; [reflexivity|].
    cbn [List.map]. rewrite Hx, IHxs. reflexivity.
  - rewrite !serialize_object. f_equal.
    induction IH as [|[k x] fs Hx _ IHfs]; [reflexivity|]. cbn [snd] in Hx.
    cbn [List.filter fst snd].
    destruct (String.eqb k "__proto__") eqn:Hk; cbn [negb]; [exact IHfs|].
    cbn [List.map List.filter fst snd]. rewrite Hk. cbn [negb List.map fst snd].
    rewrite Hx, IHfs. reflexivity.
Qed.

(** The decimal string of a BigInt determines it: parsed as a signed
    decimal numeral the string gives the BigInt back, so two different
    BigInts, and two values that differ in a BigInt only, are never
    serialized to the same string. *)
Theorem BigInt_toString_faithful a :
  option_map Z.of_int (NilZero.int_of_string (BigInt_toString a)) = Some a /\
  (forall b, serialize (VBigInt a) = serialize (VBigInt b) -> a = b).
Proof.
  assert (Hparse : forall z,
            option_map Z.of_int (NilZero.int_of_string (BigInt_toString z)) = Some z).
  { intros z. unfold BigInt_toString. rewrite NilZero.isi.
    - cbn [option_map]. rewrite DecimalZ.of_to. reflexivity.
    - destruct z as [|p|p]; cbn; try discriminate.
      intros [= H]. exact (DecimalPos.Unsigned.to_uint_nonnil p H).
    - destruct z as [|p|p]; cbn; try discriminate.
      intros [= H]. exact (DecimalPos.Unsigned.to_uint_nonnil p H). }
  split; [apply Hparse|].
  intros b Heq. cbn [serialize] in Heq. injection Heq as Heq.
  pose proof (Hparse a) as Ha. rewrite Heq, Hparse in Ha. congruence.
Qed.

Lemma BigInt_toString_faithful_witness :
  BigInt_toString (-42) = "-42" /\ BigInt_toString 0 = "0" /\ (-42 : Z) = -42.
Proof.
  split; [reflexivity|]. split; [reflexivity|].
  destruct (BigInt_toString_faithful (-42)) as [_ H]. apply H. reflexivity.
Defined.
